(** * go-ukify: the UKI builder pipeline, embedded and verified

    A shallow embedding of [Builder.Build] (package [uki]) and of the nine
    section generators of [pkg/uki/generate.go].

    The Go code mutates a [*Builder] and talks to the operating system and
    to collaborator packages ([pesign], [measure], [constants], ...).  The
    embedding threads a pair (builder, world) through a small monad with
    three outcomes: a normal return, a returned [error], and a panic.  The
    functions of other packages are fields of an environment record [Env];
    every call to them is recorded in the world's [trace]. *)

From Stdlib.Strings Require Import String Ascii Byte.
From Stdlib Require Import List Bool Lia.
From stdpp Require Import base gmap sets list strings.

Local Open Scope string_scope.
Local Open Scope list_scope.

(** ** Section identifiers *)

Module constants.

(** Modelled from the spec: the identifiers of package [constants] that the
    generators name ([constants.OSRel], [constants.CMDLine], ...); the spec
    lists them as the fixed identifier set of a section's [Name]. *)
Inductive SectionName : Type :=
| OSRel | CMDLine | Initrd | Splash | Uname | SBAT | PCRPKey | Linux | PCRSig.

Definition to_nat (n : SectionName) : nat :=
  match n with
  | OSRel => 0 | CMDLine => 1 | Initrd => 2 | Splash => 3 | Uname => 4
  | SBAT => 5 | PCRPKey => 6 | Linux => 7 | PCRSig => 8
  end.

Definition of_nat (k : nat) : SectionName :=
  match k with
  | 0 => OSRel | 1 => CMDLine | 2 => Initrd | 3 => Splash | 4 => Uname
  | 5 => SBAT | 6 => PCRPKey | 7 => Linux | _ => PCRSig
  end.

#[global] Instance SectionName_eq_dec : EqDecision SectionName.
Proof. solve_decision. Defined.

#[global] Instance SectionName_countable : Countable SectionName.
Proof. refine (inj_countable' to_nat of_nat _). intros []; reflexivity. Defined.

End constants.

(** ** Values handed around by the builder *)

(** [types.UkiSection] (aliased [section] in package [uki]). *)
Record UkiSection : Type := mkSection {
  Name : constants.SectionName;
  Path : string;
  Measure : bool;
  Append : bool
}.

#[global] Instance UkiSection_eq_dec : EqDecision UkiSection.
Proof. solve_decision. Defined.

(** Opaque handles for the values of other packages. *)
Inductive CertificateSigner : Type := CertificateSignerRef (id : nat).
Inductive RSAKey : Type := RSAKeyRef (id : nat).
Inductive PublicKey : Type := PublicKeyRef (id : nat).
Inductive Signer : Type := SignerRef (id : nat).
Inductive PCRData : Type := PCRDataRef (id : nat).
Inductive SlogLogger : Type := slog_Default | LoggerRef (id : nat).

Inductive Level : Type := LevelDebug | LevelInfo | LevelWarn | LevelError.

(** Go [error] values: the ones [Build] makes itself ([errors.New],
    [fmt.Errorf] with [%w]) and the ones collaborators hand back. *)
Inductive error : Type :=
| errors_New (msg : string)
| fmt_Errorf (prefix : string) (wrapped : error)
| collaborator_error (msg : string).

#[global] Instance error_eq_dec : EqDecision error.
Proof. solve_decision. Defined.

(** The builder: exported configuration, then the four fields
    "initialized during build". [nil] interfaces and pointers are [None]. *)
Record Builder : Type := mkBuilder {
  Arch : string;
  Version : string;
  SdStubPath : string;
  SdBootPath : string;
  KernelPath : string;
  InitrdPath : string;
  Cmdline : string;
  OsRelease : string;
  SecureBootSigner : option CertificateSigner;
  SBKey : string;
  SBCert : string;
  PCRSigner : option RSAKey;
  PCRKey : string;
  Splash : string;
  OutSdBootPath : string;
  OutUKIPath : string;
  Logger : option SlogLogger;
  LogLevel : string;
  sections : list UkiSection;
  scratchDir : string;
  peSigner : option Signer;
  unsignedUKIPath : string
}.

Definition set_SecureBootSigner (b : Builder) (v : option CertificateSigner) : Builder :=
  mkBuilder (Arch b) (Version b) (SdStubPath b) (SdBootPath b) (KernelPath b)
    (InitrdPath b) (Cmdline b) (OsRelease b) v (SBKey b) (SBCert b)
    (PCRSigner b) (PCRKey b) (Splash b) (OutSdBootPath b) (OutUKIPath b)
    (Logger b) (LogLevel b) (sections b) (scratchDir b) (peSigner b)
    (unsignedUKIPath b).

Definition set_PCRSigner (b : Builder) (v : option RSAKey) : Builder :=
  mkBuilder (Arch b) (Version b) (SdStubPath b) (SdBootPath b) (KernelPath b)
    (InitrdPath b) (Cmdline b) (OsRelease b) (SecureBootSigner b) (SBKey b)
    (SBCert b) v (PCRKey b) (Splash b) (OutSdBootPath b) (OutUKIPath b)
    (Logger b) (LogLevel b) (sections b) (scratchDir b) (peSigner b)
    (unsignedUKIPath b).

Definition set_Logger (b : Builder) (v : option SlogLogger) : Builder :=
  mkBuilder (Arch b) (Version b) (SdStubPath b) (SdBootPath b) (KernelPath b)
    (InitrdPath b) (Cmdline b) (OsRelease b) (SecureBootSigner b) (SBKey b)
    (SBCert b) (PCRSigner b) (PCRKey b) (Splash b) (OutSdBootPath b)
    (OutUKIPath b) v (LogLevel b) (sections b) (scratchDir b) (peSigner b)
    (unsignedUKIPath b).

Definition set_sections (b : Builder) (v : list UkiSection) : Builder :=
  mkBuilder (Arch b) (Version b) (SdStubPath b) (SdBootPath b) (KernelPath b)
    (InitrdPath b) (Cmdline b) (OsRelease b) (SecureBootSigner b) (SBKey b)
    (SBCert b) (PCRSigner b) (PCRKey b) (Splash b) (OutSdBootPath b)
    (OutUKIPath b) (Logger b) (LogLevel b) v (scratchDir b) (peSigner b)
    (unsignedUKIPath b).

Definition set_scratchDir (b : Builder) (v : string) : Builder :=
  mkBuilder (Arch b) (Version b) (SdStubPath b) (SdBootPath b) (KernelPath b)
    (InitrdPath b) (Cmdline b) (OsRelease b) (SecureBootSigner b) (SBKey b)
    (SBCert b) (PCRSigner b) (PCRKey b) (Splash b) (OutSdBootPath b)
    (OutUKIPath b) (Logger b) (LogLevel b) (sections b) v (peSigner b)
    (unsignedUKIPath b).

Definition set_peSigner (b : Builder) (v : option Signer) : Builder :=
  mkBuilder (Arch b) (Version b) (SdStubPath b) (SdBootPath b) (KernelPath b)
    (InitrdPath b) (Cmdline b) (OsRelease b) (SecureBootSigner b) (SBKey b)
    (SBCert b) (PCRSigner b) (PCRKey b) (Splash b) (OutSdBootPath b)
    (OutUKIPath b) (Logger b) (LogLevel b) (sections b) (scratchDir b) v
    (unsignedUKIPath b).

Definition set_unsignedUKIPath (b : Builder) (v : string) : Builder :=
  mkBuilder (Arch b) (Version b) (SdStubPath b) (SdBootPath b) (KernelPath b)
    (InitrdPath b) (Cmdline b) (OsRelease b) (SecureBootSigner b) (SBKey b)
    (SBCert b) (PCRSigner b) (PCRKey b) (Splash b) (OutSdBootPath b)
    (OutUKIPath b) (Logger b) (LogLevel b) (sections b) (scratchDir b)
    (peSigner b) v.

(** ** The world outside the builder *)

(** One entry per call that reaches the machine or a collaborator with
    state, in program order.  The [os] calls that change the file system
    carry their result.  Log entries keep the message and drop the
    key/value attributes. *)
Inductive event : Type :=
| EvSetLogLoggerLevel (l : Level)
| EvLog (lg : SlogLogger) (l : Level) (msg : string)
| EvLogPrintf (msg : string) (e : error)
| EvNewPCRSigner (keyPath : string)
| EvNewSecureBootSigner (cert key : string)
| EvMkdirTemp (dir pattern : string) (r : string + error)
| EvRemoveAll (path : string) (r : option error)
| EvNewSigner (sb : option CertificateSigner)
| EvSign (receiver : option Signer) (input output : string)
| EvWriteFile (path : string) (data : list byte) (r : option error)
| EvReadFile (path : string)
| EvDiscoverKernelVersion (kernelPath : string)
| EvGetSBAT (stubPath : string)
| EvGenerateSignedPCR (sectionsData : gmap constants.SectionName string)
    (k : option RSAKey) (pcr : nat)
| EvPrintSystemdMeasurements (phases : string)
    (sectionsData : gmap constants.SectionName string) (pcrKey : string)
| EvAssemble (stubPath : string) (secs : list UkiSection).

(** [files] holds what this package wrote with [os.WriteFile]; [dirs] the
    directories it created; [slogLevel] is slog's process-wide level. *)
Record World : Type := mkWorld {
  files : gmap string (list byte);
  dirs : gset string;
  slogLevel : Level;
  trace : list event
}.

Definition emit (ev : event) (w : World) : World :=
  mkWorld (files w) (dirs w) (slogLevel w) (trace w ++ [ev]).

Definition set_slogLevel (l : Level) (w : World) : World :=
  mkWorld (files w) (dirs w) l (trace w).

Definition set_files (f : gmap string (list byte)) (w : World) : World :=
  mkWorld f (dirs w) (slogLevel w) (trace w).

Definition set_dirs (d : gset string) (w : World) : World :=
  mkWorld (files w) d (slogLevel w) (trace w).

(** The events a run added: the trace of [w'] past the length of [w]'s. *)
Definition new_events (w w' : World) : list event :=
  drop (length (trace w)) (trace w').

(** ** Collaborators *)

(** Outcome of a call: Go's normal return (with or without an [error]) or
    a panic, which unwinds through [Build] running its deferred closure. *)
Inductive Result (A : Type) : Type :=
| Ok (a : A)
| Err (e : error)
| Panic.
Arguments Ok {A} a.
Arguments Err {A} e.
Arguments Panic {A}.

(** Functions and constants of other packages, as the code calls them.
    Those that touch the machine see the world (and so the history).
    [os_ReadFile] returns Go's pair: the bytes read so far and the error.
    [pesign_Sign] gets its pointer receiver, which may be [nil]. *)
Record Env : Type := mkEnv {
  pesign_NewPCRSigner : string -> World -> RSAKey + error;
  pesign_NewSecureBootSigner : string -> string -> World -> CertificateSigner + error;
  pesign_NewSigner : option CertificateSigner -> World -> Signer + error;
  pesign_Sign : option Signer -> string -> string -> option SlogLogger -> World -> Result unit;
  os_MkdirTemp : string -> string -> World -> string + error;
  os_RemoveAll : string -> World -> option error;
  os_WriteFile : string -> list byte -> World -> option error;
  os_ReadFile : string -> World -> list byte * option error;
  filepath_Join : string -> string -> string;
  constants_Name : string;
  constants_OSReleaseFor : string -> string -> list byte + error;
  constants_PEMTypeRSAPublic : string;
  constants_UKIPCR : nat;
  common_Logo : list byte;
  DiscoverKernelVersion : string -> World -> string * option error;
  GetSBAT : string -> World -> list byte + error;
  PublicRSAKey : RSAKey -> PublicKey;
  x509_MarshalPKIXPublicKey : PublicKey -> list byte + error;
  pem_EncodeToMemory : string -> list byte -> list byte;
  measure_GenerateSignedPCR :
    gmap constants.SectionName string -> option RSAKey -> nat -> option SlogLogger -> World -> PCRData + error;
  json_Marshal : PCRData -> list byte + error;
  assemble_UKI : string -> list UkiSection -> World -> string + error
}.

(** ** The monad of builder methods *)

Definition State : Type := Builder * World.
Definition M (A : Type) : Type := State -> Result A * State.

Definition ret {A} (a : A) : M A := fun s => (Ok a, s).
Definition throw {A} (e : error) : M A := fun s => (Err e, s).
Definition panic {A} : M A := fun s => (Panic, s).

Definition bind {A B} (m : M A) (k : A -> M B) : M B := fun s =>
  match m s with
  | (Ok a, s') => k a s'
  | (Err e, s') => (Err e, s')
  | (Panic, s') => (Panic, s')
  end.

Declare Scope go_scope.
Delimit Scope go_scope with go.
Notation "x <~ m ;; k" := (bind m (fun x => k))
  (at level 100, m at next level, right associativity) : go_scope.
Notation "m ;;; k" := (bind m (fun _ => k))
  (at level 100, right associativity) : go_scope.
Local Open Scope go_scope.

Definition getB : M Builder := fun s => (Ok (fst s), s).
Definition getW : M World := fun s => (Ok (snd s), s).
Definition modifyB (f : Builder -> Builder) : M unit := fun s => (Ok tt, (f (fst s), snd s)).
Definition modifyW (f : World -> World) : M unit := fun s => (Ok tt, (fst s, f (snd s))).

(** [return fmt.Errorf(prefix + ": %w", err)] around a failing step. *)
Definition wrapErr {A} (prefix : string) (m : M A) : M A := fun s =>
  match m s with
  | (Err e, s') => (Err (fmt_Errorf prefix e), s')
  | r => r
  end.

(** A value-or-error return of a collaborator. *)
Definition lift_sum {A} (r : A + error) : M A :=
  match r with inl a => ret a | inr e => throw e end.

(** [builder.Logger.Debug/Info(msg, ...)]: a method call through the
    [*slog.Logger]; through a nil pointer it panics. *)
Definition logger_log (l : Level) (msg : string) : M unit := fun s =>
  match Logger (fst s) with
  | Some lg => (Ok tt, (fst s, emit (EvLog lg l msg) (snd s)))
  | None => (Panic, s)
  end.

(** Package-level [slog.Info(msg, ...)]: the default logger. *)
Definition slog_log (l : Level) (msg : string) : M unit :=
  modifyW (emit (EvLog slog_Default l msg)).

(** [builder.sections = append(builder.sections, s)]. *)
Definition appendSection (s : UkiSection) : M unit :=
  modifyB (fun b => set_sections b (sections b ++ [s])).

(** ** Operating-system calls *)

(** [os.WriteFile(path, data, 0o600)]: on success the file holds exactly
    [data]. *)
Definition WriteFile (env : Env) (path : string) (data : list byte) : M unit := fun s =>
  let r := os_WriteFile env path data (snd s) in
  let w := emit (EvWriteFile path data r) (snd s) in
  match r with
  | None => (Ok tt, (fst s, set_files (<[path := data]> (files w)) w))
  | Some e => (Err e, (fst s, w))
  end.

(** [os.ReadFile(path)], both results as Go returns them. *)
Definition ReadFile (env : Env) (path : string) : M (list byte * option error) := fun s =>
  (Ok (os_ReadFile env path (snd s)), (fst s, emit (EvReadFile path) (snd s))).

(** Whether [p] lies below directory [d]. *)
Definition below (d p : string) : bool := String.prefix (d +:+ "/") p.

(** [os.RemoveAll(path)]: on success the directory and all below it are
    gone.  The result is the error, [None] for nil. *)
Definition RemoveAll (env : Env) (path : string) (w : World) : option error * World :=
  let r := os_RemoveAll env path w in
  let w1 := emit (EvRemoveAll path r) w in
  match r with
  | None =>
      (None, set_dirs (dirs w1 ∖ {[path]})
               (set_files (filter (fun kv => below path kv.1 = false) (files w1)) w1))
  | Some e => (Some e, w1)
  end.

(** ** Section generators (generate.go) *)

Section Generators.

Variable env : Env.

Definition generateOSRel : M unit :=
  b <~ getB ;;
  path <~ (if String.eqb (OsRelease b) "" then
             logger_log LevelDebug "Generating a new os-release" ;;;
             osRelease <~ lift_sum (constants_OSReleaseFor env (constants_Name env) (Version b)) ;;
             let path := filepath_Join env (scratchDir b) "os-release" in
             WriteFile env path osRelease ;;;
             ret path
           else
             logger_log LevelDebug "Using existing os-release" ;;;
             ret (OsRelease b)) ;;
  appendSection (mkSection constants.OSRel path true true).

Definition generateCmdline : M unit :=
  b <~ getB ;;
  logger_log LevelDebug "Using cmdline" ;;;
  let path := filepath_Join env (scratchDir b) "cmdline" in
  WriteFile env path (list_byte_of_string (Cmdline b)) ;;;
  appendSection (mkSection constants.CMDLine path true true).

Definition generateInitrd : M unit :=
  b <~ getB ;;
  logger_log LevelDebug "Using initrd" ;;;
  appendSection (mkSection constants.Initrd (InitrdPath b) true true).

Definition generateSplash : M unit :=
  b <~ getB ;;
  let path := filepath_Join env (scratchDir b) "splash.bmp" in
  data <~ (if String.eqb (Splash b) "" then
             logger_log LevelDebug "Using generic bundled splash" ;;;
             ret (common_Logo env)
           else
             logger_log LevelDebug "Using splash" ;;;
             r <~ ReadFile env (Splash b) ;;
             ret (fst r)) ;;
  WriteFile env path data ;;;
  appendSection (mkSection constants.Splash path true true).

Definition generateUname : M unit :=
  b <~ getB ;;
  w <~ getW ;;
  modifyW (emit (EvDiscoverKernelVersion (KernelPath b))) ;;;
  let kernelVersion := fst (DiscoverKernelVersion env (KernelPath b) w) in
  if String.eqb kernelVersion "" then
    logger_log LevelInfo "We could not infer kernel version"
  else
    logger_log LevelDebug "Getting uname" ;;;
    let path := filepath_Join env (scratchDir b) "uname" in
    WriteFile env path (list_byte_of_string kernelVersion) ;;;
    appendSection (mkSection constants.Uname path true true).

Definition generateSBAT : M unit :=
  b <~ getB ;;
  logger_log LevelDebug "Getting SBAT" ;;;
  w <~ getW ;;
  modifyW (emit (EvGetSBAT (SdStubPath b))) ;;;
  sbat <~ lift_sum (GetSBAT env (SdStubPath b) w) ;;
  logger_log LevelDebug "Generated SBAT" ;;;
  let path := filepath_Join env (scratchDir b) "sbat" in
  WriteFile env path sbat ;;;
  appendSection (mkSection constants.SBAT path true false).

(** [builder.PCRSigner.PublicRSAKey()] is a method call on an interface
    value: on a nil interface it panics. *)
Definition generatePCRPublicKey : M unit :=
  b <~ getB ;;
  logger_log LevelDebug "Getting Public PCR key" ;;;
  match PCRSigner b with
  | None => panic
  | Some signer =>
      publicKeyBytes <~ lift_sum (x509_MarshalPKIXPublicKey env (PublicRSAKey env signer)) ;;
      let publicKeyPEM := pem_EncodeToMemory env (constants_PEMTypeRSAPublic env) publicKeyBytes in
      let path := filepath_Join env (scratchDir b) "pcr-public.pem" in
      WriteFile env path publicKeyPEM ;;;
      appendSection (mkSection constants.PCRPKey path true true)
  end.

Definition generateKernel : M unit :=
  b <~ getB ;;
  logger_log LevelDebug "Getting kernel" ;;;
  appendSection (mkSection constants.Linux (KernelPath b) true true).

(** [xslices.Filter] keeps the elements in order; [xslices.ToMap] stores
    them one by one, a later key overwriting an earlier one. *)
Definition xslices_Filter {A} (l : list A) (f : A -> bool) : list A :=
  List.filter f l.

Definition xslices_ToMap {A} {K} `{Countable K} {V} (l : list A) (f : A -> K * V) : gmap K V :=
  fold_left (fun m a => <[fst (f a) := snd (f a)]> m) l ∅.

(** The mapping [generatePCRSig] builds from the section list. *)
Definition sectionsData (secs : list UkiSection) : gmap constants.SectionName string :=
  xslices_ToMap (xslices_Filter secs (fun s => Measure s)) (fun s => (Name s, Path s)).

Definition generatePCRSig : M unit :=
  b <~ getB ;;
  logger_log LevelInfo "Generating PCR measurements and signed policy" ;;;
  logger_log LevelDebug "Using PCR slot" ;;;
  let sectionsData := sectionsData (sections b) in
  w <~ getW ;;
  modifyW (emit (EvGenerateSignedPCR sectionsData (PCRSigner b) (constants_UKIPCR env))) ;;;
  pcrData <~ lift_sum (measure_GenerateSignedPCR env sectionsData (PCRSigner b)
                         (constants_UKIPCR env) (Logger b) w) ;;
  (if String.eqb (LogLevel b) "debug" then
     modifyW (emit (EvPrintSystemdMeasurements "enter-initrd:leave-initrd:sysinit:ready"
                      sectionsData (PCRKey b)))
   else ret tt) ;;;
  pcrSignatureData <~ lift_sum (json_Marshal env pcrData) ;;
  let path := filepath_Join env (scratchDir b) "pcrpsig" in
  WriteFile env path pcrSignatureData ;;;
  appendSection (mkSection constants.PCRSig path false true).

End Generators.

(** ** Build (the builder's entry point) *)

(** [strings.ToLower] as far as [Build] depends on it: upper-case ASCII
    letters are lowered and every other byte is kept.  No rune outside
    ASCII lowers to a letter of "debug", "warn" or "error", so the switch
    of [Build] takes the same arm as with the Unicode-aware function. *)
Definition ascii_ToLower (c : ascii) : ascii :=
  let n := nat_of_ascii c in
  if Nat.leb 65 n && Nat.leb n 90 then ascii_of_nat (n + 32) else c.

Fixpoint strings_ToLower (s : string) : string :=
  match s with
  | EmptyString => EmptyString
  | String c s' => String (ascii_ToLower c) (strings_ToLower s')
  end.

(** The level chosen by the [switch] on the lowered [LogLevel]. *)
Definition selectLevel (logLevel : string) : Level :=
  let l := strings_ToLower logLevel in
  if String.eqb l "debug" then LevelDebug
  else if String.eqb l "warn" then LevelWarn
  else if String.eqb l "error" then LevelError
  else LevelInfo.

(** [slog.SetLogLoggerLevel]: sets the level of the whole process. *)
Definition slog_SetLogLoggerLevel (l : Level) : M unit :=
  modifyW (fun w => emit (EvSetLogLoggerLevel l) (set_slogLevel l w)).

Section Build.

Variable env : Env.

Definition configureLogging : M unit :=
  b <~ getB ;;
  match Logger b with
  | None => modifyB (fun b => set_Logger b (Some slog_Default))
  | Some _ => ret tt
  end ;;;
  slog_SetLogLoggerLevel (selectLevel (LogLevel b)).

Definition resolvePCRSigner : M unit :=
  b <~ getB ;;
  match PCRSigner b with
  | Some _ => ret tt
  | None =>
      if String.eqb (PCRKey b) "" then
        throw (errors_New "no PCR signer or PCRKey available")
      else
        w <~ getW ;;
        modifyW (emit (EvNewPCRSigner (PCRKey b))) ;;;
        signer <~ lift_sum (pesign_NewPCRSigner env (PCRKey b) w) ;;
        modifyB (fun b => set_PCRSigner b (Some signer))
  end.

Definition resolveSecureBootSigner : M unit :=
  b <~ getB ;;
  match SecureBootSigner b with
  | Some _ => ret tt
  | None =>
      if String.eqb (SBCert b) "" || String.eqb (SBKey b) "" then
        throw (errors_New "no Secureboot signer or combination of SB key+cert to sign")
      else
        w <~ getW ;;
        modifyW (emit (EvNewSecureBootSigner (SBCert b) (SBKey b))) ;;;
        sbSigner <~ lift_sum (pesign_NewSecureBootSigner env (SBCert b) (SBKey b) w) ;;
        modifyB (fun b => set_SecureBootSigner b (Some sbSigner))
  end.

(** [builder.scratchDir, err = os.MkdirTemp("", "ukify")]: the field is
    assigned whatever the outcome (the empty string comes with an error). *)
Definition acquireScratch : M unit := fun s =>
  let r := os_MkdirTemp env "" "ukify" (snd s) in
  let w := emit (EvMkdirTemp "" "ukify" r) (snd s) in
  match r with
  | inl d => (Ok tt, (set_scratchDir (fst s) d, set_dirs ({[d]} ∪ dirs w) w))
  | inr e => (Err e, (set_scratchDir (fst s) "", w))
  end.

(** [builder.peSigner, err = pesign.NewSigner(builder.SecureBootSigner)]:
    a nil pointer comes with an error. *)
Definition newPESigner : M unit := fun s =>
  let b := fst s in
  let w := emit (EvNewSigner (SecureBootSigner b)) (snd s) in
  match pesign_NewSigner env (SecureBootSigner b) (snd s) with
  | inl sg => (Ok tt, (set_peSigner b (Some sg), w))
  | inr e => (Err e, (set_peSigner b None, w))
  end.

(** [builder.peSigner.Sign(input, output, builder.Logger)]: the receiver
    is whatever the field holds. *)
Definition Sign (input output : string) : M unit := fun s =>
  let b := fst s in
  (pesign_Sign env (peSigner b) input output (Logger b) (snd s),
   (b, emit (EvSign (peSigner b) input output) (snd s))).

(** Lines 131-146: the optional signing of systemd-boot. *)
Definition signSdBoot : M unit :=
  b <~ getB ;;
  if String.eqb (SdBootPath b) "" then
    logger_log LevelInfo "Not signing systemd-boot"
  else
    slog_log LevelInfo "Signing systemd-boot" ;;;
    wrapErr "error initializing signer" newPESigner ;;;
    wrapErr "error signing sd-boot" (Sign (SdBootPath b) (OutSdBootPath b)) ;;;
    slog_log LevelInfo "Signed systemd-boot".

(** The [for] loop over the generators: the first error stops it and is
    returned wrapped. *)
Fixpoint run_generators (gs : list (M unit)) : M unit :=
  match gs with
  | [] => ret tt
  | g :: gs' => wrapErr "error generating sections" g ;;; run_generators gs'
  end.

Definition generators : list (M unit) :=
  [ generateOSRel env; generateCmdline env; generateInitrd;
    generateSplash env; generateUname env; generateSBAT env;
    generatePCRPublicKey env; generateKernel; generatePCRSig env ].

(** Modelled from the spec: [Builder.assemble], whose file is not among
    the sources.  The spec gives the Assembler as
    "assemble(stubPath, ordered sections) -> (path to unsigned binary,
    error)", the section list as read-only once handed to it, and its
    failure as fatal; the path is what [Build] signs next. *)
Definition assemble : M unit := fun s =>
  let b := fst s in
  let w := emit (EvAssemble (SdStubPath b) (sections b)) (snd s) in
  match assemble_UKI env (SdStubPath b) (sections b) (snd s) with
  | inl p => (Ok tt, (set_unsignedUKIPath b p, w))
  | inr e => (Err e, (b, w))
  end.

(** Lines 169-186: assembling, then signing the UKI.  The error of the
    last [Sign] is returned as it is. *)
Definition assembleAndSign : M unit :=
  logger_log LevelInfo "Generated UKI sections" ;;;
  logger_log LevelInfo "Assembling UKI" ;;;
  wrapErr "error assembling UKI" assemble ;;;
  logger_log LevelInfo "Assembled UKI" ;;;
  logger_log LevelInfo "Signing UKI" ;;;
  b <~ getB ;;
  Sign (unsignedUKIPath b) (OutUKIPath b) ;;;
  logger_log LevelInfo "Signed UKI".

(** Lines 131-186: what [Build] does once the deferred closure is
    registered; its outcome is what the [return] statements yield. *)
Definition Build_body : M unit :=
  signSdBoot ;;;
  logger_log LevelInfo "Generating UKI sections" ;;;
  run_generators generators ;;;
  assembleAndSign.

(** The deferred closure: [if err = os.RemoveAll(builder.scratchDir);
    err != nil { log.Printf(...) }].  Its first component is the value it
    leaves in [Build]'s local variable [err]. *)
Definition deferred_cleanup (s : State) : option error * State :=
  let r := RemoveAll env (scratchDir (fst s)) (snd s) in
  match fst r with
  | Some e => (Some e, (fst s, emit (EvLogPrintf "failed to remove scratch dir: %v" e) (snd r)))
  | None => (None, (fst s, snd r))
  end.

(** Lines 79-123, up to the registration of the deferred closure. *)
Definition Build_prelude : M unit :=
  configureLogging ;;;
  resolvePCRSigner ;;;
  resolveSecureBootSigner ;;;
  acquireScratch.

(** [Build]'s result parameter is unnamed: a [return] fixes the result
    before the deferred closure runs, and the closure's assignment to the
    local [err] stays in the frame.  A panic unwinds through the closure
    too. *)
Definition Build : M unit := fun s =>
  match Build_prelude s with
  | (Ok _, s1) =>
      let body := Build_body s1 in
      let cleanup := deferred_cleanup (snd body) in
      (fst body, snd cleanup)
  | (Err e, s1) => (Err e, s1)
  | (Panic, s1) => (Panic, s1)
  end.

End Build.

(** ** Sample collaborators and builders *)

Module Sample.

Definition join (d f : string) : string := d +:+ "/" +:+ f.

(** A machine on which every call succeeds, except as the three knobs
    say: the kernel version the prober finds, whether the PCR key file
    loads, whether the scratch directory can be removed.  The supplied
    splash file cannot be opened, and a signer reached through a nil
    pointer panics. *)
Definition env (kver : string) (keyLoads removeOk : bool) : Env :=
  mkEnv
    (fun _ _ => if keyLoads then inl (RSAKeyRef 1)
                else inr (collaborator_error "open pcr.pem: no such file or directory"))
    (fun _ _ _ => inl (CertificateSignerRef 1))
    (fun _ _ => inl (SignerRef 1))
    (fun receiver _ _ _ _ => match receiver with Some _ => Ok tt | None => Panic end)
    (fun _ _ _ => inl "/tmp/ukify42")
    (fun _ _ => if removeOk then None
                else Some (collaborator_error "unlinkat /tmp/ukify42: permission denied"))
    (fun _ _ _ => None)
    (fun _ _ => ([], Some (collaborator_error "open splash.bmp: no such file or directory")))
    join
    "Kairos"
    (fun name _ => inl (list_byte_of_string ("NAME=" +:+ name)))
    "PUBLIC KEY"
    11
    [x42; x4d]
    (fun _ _ => (kver, if String.eqb kver "" then Some (collaborator_error "no version") else None))
    (fun _ _ => inl (list_byte_of_string "sbat,1"))
    (fun _ => PublicKeyRef 1)
    (fun _ => inl [x30])
    (fun _ der => der)
    (fun _ _ _ _ _ => inl (PCRDataRef 1))
    (fun _ => inl [x7b; x7d])
    (fun _ _ _ => inl "/tmp/ukify42/uki.unsigned.efi").

(** A builder as a client package sets it up: exported fields only. *)
Definition builder (sdBoot splash : string) (sb : option CertificateSigner)
    (pcr : option RSAKey) (pcrKey : string) : Builder :=
  mkBuilder "amd64" "v1.0" "linuxx64.efi.stub" sdBoot "vmlinuz" "initrd.img"
    "console=ttyS0 reboot=k" "" sb "" "" pcr pcrKey splash
    "systemd-bootx64.signed.efi" "uki.signed.efi" None "" [] "" None "".

Definition world0 : World := mkWorld ∅ ∅ LevelInfo [].

End Sample.

(** ** What a step may touch *)

(** The invariant the section list keeps: a section named [PCRSig] is
    not measured. *)
Definition pcrsig_unmeasured (s : UkiSection) : Prop :=
  Name s = constants.PCRSig -> Measure s = false.

(** The events a step of the pipeline may add.  A [strict] step neither
    makes a PE signer nor signs with anything but the builder's current
    one; only a [measuring] step calls the measurement engine. *)
Definition allowed (strict measuring : bool) (b : Builder) (ev : event) : Prop :=
  match ev with
  | EvLog _ _ _ | EvWriteFile _ _ _ | EvReadFile _
  | EvDiscoverKernelVersion _ | EvGetSBAT _ | EvAssemble _ _ => True
  | EvGenerateSignedPCR _ _ _ | EvPrintSystemdMeasurements _ _ _ => measuring = true
  | EvNewSigner _ => strict = false
  | EvSign r _ _ => strict = true -> r = peSigner b
  | EvSetLogLoggerLevel _ | EvLogPrintf _ _ | EvNewPCRSigner _
  | EvNewSecureBootSigner _ _ | EvMkdirTemp _ _ _ | EvRemoveAll _ _ => False
  end.

(** [frame strict measuring appending s s']: from [s] to [s'] the
    configuration is kept, sections were only appended (none unless
    [appending]), the trace only grew, by allowed events, and the log
    level of the process is kept. *)
Record frame (strict measuring appending : bool) (s s' : State) : Prop := mkFrame {
  fr_config :
    set_peSigner (set_unsignedUKIPath (set_sections (fst s') []) "") None =
    set_peSigner (set_unsignedUKIPath (set_sections (fst s) []) "") None;
  fr_signer : strict = true -> peSigner (fst s') = peSigner (fst s);
  fr_sections :
    exists l, sections (fst s') = sections (fst s) ++ l /\
              Forall pcrsig_unmeasured l /\ (appending = false -> l = []);
  fr_trace :
    exists evs, trace (snd s') = trace (snd s) ++ evs /\
                Forall (allowed strict measuring (fst s)) evs;
  fr_level : slogLevel (snd s') = slogLevel (snd s)
}.

(** A computation all of whose runs stay within a relation. *)
Definition stable {A} (R : State -> State -> Prop) (m : M A) : Prop :=
  forall s, R s (snd (m s)).


(** The eight generators that run before the measurement. *)
Definition payload_generators (env : Env) : list (M unit) :=
  [ generateOSRel env; generateCmdline env; generateInitrd;
    generateSplash env; generateUname env; generateSBAT env;
    generatePCRPublicKey env; generateKernel ].


Definition prelude_event (ev : event) : Prop :=
  match ev with
  | EvNewPCRSigner _ | EvNewSecureBootSigner _ _ | EvMkdirTemp _ _ _ => True
  | _ => False
  end.

Definition loggerOrDefault (l : option SlogLogger) : SlogLogger :=
  match l with Some lg => lg | None => slog_Default end.


(** Name and flags of a section, and the layout one successful run of
    the generators appends (with or without the uname section). *)
Definition signature (s : UkiSection) : constants.SectionName * bool * bool :=
  (Name s, Measure s, Append s).

Definition build_layout (uname : bool) : list (constants.SectionName * bool * bool) :=
  [ (constants.OSRel, true, true); (constants.CMDLine, true, true);
    (constants.Initrd, true, true); (constants.Splash, true, true) ] ++
  (if uname then [ (constants.Uname, true, true) ] else []) ++
  [ (constants.SBAT, true, false); (constants.PCRPKey, true, true);
    (constants.Linux, true, true); (constants.PCRSig, false, true) ].


(** ** Vocabulary of the properties *)

(** The two errors [Build] makes itself, for missing signer material. *)
Definition errNoPCRSigner : error :=
  errors_New "no PCR signer or PCRKey available".

Definition errNoSecureBootSigner : error :=
  errors_New "no Secureboot signer or combination of SB key+cert to sign".

Definition configuration_error (e : error) : Prop :=
  e = errNoPCRSigner \/ e = errNoSecureBootSigner.

(** Neither form of a signing capability is configured. *)
Definition missing_PCR_capability (b : Builder) : Prop :=
  PCRSigner b = None /\ PCRKey b = "".

Definition missing_SecureBoot_capability (b : Builder) : Prop :=
  SecureBootSigner b = None /\ (SBCert b = "" \/ SBKey b = "").

Definition is_MkdirTemp (ev : event) : Prop :=
  match ev with EvMkdirTemp _ _ _ => True | _ => False end.

(** The name-to-path mapping an event hands to package [measure]. *)
Definition measured_by (ev : event) : option (gmap constants.SectionName string) :=
  match ev with
  | EvGenerateSignedPCR m _ _ => Some m
  | EvPrintSystemdMeasurements _ m _ => Some m
  | _ => None
  end.


(** How often a section name occurs in a list. *)
Definition occurrences (n : constants.SectionName) (l : list UkiSection) : nat :=
  count_occ constants.SectionName_eq_dec (map Name l) n.

Definition head_is_OSRel (l : list UkiSection) : Prop :=
  match l with
  | [] => True
  | s :: _ => Name s = constants.OSRel
  end.

(** The builders a client package can hold: one it made itself (the four
    unexported fields at their zero values), one that went through
    [Build], and either with its exported fields reassigned. *)
Definition fresh (b : Builder) : Prop :=
  sections b = [] /\ scratchDir b = "" /\ peSigner b = None /\ unsignedUKIPath b = "".

Definition same_unexported (b b' : Builder) : Prop :=
  sections b' = sections b /\ scratchDir b' = scratchDir b /\
  peSigner b' = peSigner b /\ unsignedUKIPath b' = unsignedUKIPath b.

Inductive reachable (env : Env) : Builder -> Prop :=
| reach_fresh b : fresh b -> reachable env b
| reach_Build b w : reachable env b -> reachable env (fst (snd (Build env (b, w))))
| reach_assign b b' : reachable env b -> same_unexported b b' -> reachable env b'.

(** Whether the kernel version could be recovered at some point. *)
Definition version_found (env : Env) (kernelPath : string) (found : bool) : Prop :=
  exists w, if found then fst (DiscoverKernelVersion env kernelPath w) <> ""
            else fst (DiscoverKernelVersion env kernelPath w) = "".

(** Missing signer material reported in the strict sense: the
    error is one of the two configuration errors and [os.MkdirTemp] is
    never called. *)
Definition fails_with_configuration_error (env : Env) (b : Builder) (w : World) : Prop :=
  exists e,
    fst (Build env (b, w)) = Err e /\ configuration_error e /\
    Forall (fun ev => ~ is_MkdirTemp ev) (new_events w (snd (snd (Build env (b, w))))).

(** An event that neither makes a PE signer nor signs through any
    receiver but [p]. *)
Definition signs_only_through (p : option Signer) (ev : event) : Prop :=
  match ev with
  | EvNewSigner _ => False
  | EvSign r _ _ => r = p
  | _ => True
  end.

(** The events of a step hand package [measure] no mapping but the one of
    the section list the step ends with. *)
Definition measures_ok (s s' : State) : Prop :=
  exists evs,
    trace (snd s') = trace (snd s) ++ evs /\
    Forall (fun ev => forall m, measured_by ev = Some m ->
                               m = sectionsData (sections (fst s'))) evs.

(** ** Sample runs *)

Module SampleRuns.

(** Every collaborator succeeds; the kernel version is not found. *)
Definition env_no_version : Env := Sample.env "" true true.

(** A client's builder with both signers supplied and systemd-boot to
    sign. *)
Definition builder_signed_boot : Builder :=
  Sample.builder "systemd-bootx64.efi" "" (Some (CertificateSignerRef 0))
    (Some (RSAKeyRef 0)) "".

(** The same, without systemd-boot. *)
Definition builder_no_boot : Builder :=
  Sample.builder "" "" (Some (CertificateSignerRef 0)) (Some (RSAKeyRef 0)) "".

(** A builder with a PCR key path and no Secure-Boot material at all. *)
Definition builder_no_secureboot : Builder :=
  Sample.builder "" "" None None "pcr.pem".

(** A builder with a supplied splash image, as the generators find it:
    logger and scratch directory set. *)
Definition builder_splash : Builder :=
  set_scratchDir
    (set_Logger
       (Sample.builder "" "splash.bmp" (Some (CertificateSignerRef 0))
          (Some (RSAKeyRef 0)) "")
       (Some slog_Default))
    "/tmp/ukify42".

Definition first_run : Result unit * State :=
  Build env_no_version (builder_signed_boot, Sample.world0).

(** A machine on which the PCR key file does not load. *)
Definition env_no_key : Env := Sample.env "" false true.

(** A machine on which the scratch directory cannot be removed. *)
Definition env_keep_scratch : Env := Sample.env "" true false.

(** The sample builder after one successful run, and its second run. *)
Definition second_run : Result unit * State :=
  Build env_no_version
    (fst (snd first_run), snd (snd first_run)).

End SampleRuns.

(** ** Vocabulary of further properties *)

(** An error that names the stage of [Build] it comes from. *)
Definition stage_error (e : error) : Prop :=
  exists cause,
    e = fmt_Errorf "error initializing signer" cause \/
    e = fmt_Errorf "error signing sd-boot" cause \/
    e = fmt_Errorf "error generating sections" cause \/
    e = fmt_Errorf "error assembling UKI" cause.

(** An error made while the signing capabilities are resolved and the
    scratch directory is acquired. *)
Definition setup_error (env : Env) (b : Builder) (e : error) : Prop :=
  e = errNoPCRSigner \/ e = errNoSecureBootSigner \/
  (exists w, pesign_NewPCRSigner env (PCRKey b) w = inr e) \/
  (exists w, pesign_NewSecureBootSigner env (SBCert b) (SBKey b) w = inr e) \/
  (exists w, os_MkdirTemp env "" "ukify" w = inr e).

(** An error the PE signer returned for the assembled UKI. *)
Definition final_sign_error (env : Env) (b : Builder) (e : error) : Prop :=
  exists receiver unsigned logger w,
    pesign_Sign env receiver unsigned (OutUKIPath b) logger w = Err e.

(** Sample machines that differ from [Sample.env] in one collaborator. *)
Definition with_GetSBAT (env : Env) (f : string -> World -> list byte + error) : Env :=
  mkEnv (pesign_NewPCRSigner env) (pesign_NewSecureBootSigner env) (pesign_NewSigner env)
    (pesign_Sign env) (os_MkdirTemp env) (os_RemoveAll env) (os_WriteFile env)
    (os_ReadFile env) (filepath_Join env) (constants_Name env)
    (constants_OSReleaseFor env) (constants_PEMTypeRSAPublic env) (constants_UKIPCR env)
    (common_Logo env) (DiscoverKernelVersion env) f (PublicRSAKey env)
    (x509_MarshalPKIXPublicKey env) (pem_EncodeToMemory env)
    (measure_GenerateSignedPCR env) (json_Marshal env) (assemble_UKI env).

Definition with_Sign (env : Env)
    (f : option Signer -> string -> string -> option SlogLogger -> World -> Result unit) : Env :=
  mkEnv (pesign_NewPCRSigner env) (pesign_NewSecureBootSigner env) (pesign_NewSigner env)
    f (os_MkdirTemp env) (os_RemoveAll env) (os_WriteFile env)
    (os_ReadFile env) (filepath_Join env) (constants_Name env)
    (constants_OSReleaseFor env) (constants_PEMTypeRSAPublic env) (constants_UKIPCR env)
    (common_Logo env) (DiscoverKernelVersion env) (GetSBAT env) (PublicRSAKey env)
    (x509_MarshalPKIXPublicKey env) (pem_EncodeToMemory env)
    (measure_GenerateSignedPCR env) (json_Marshal env) (assemble_UKI env).

Definition with_ReadFile (env : Env) (f : string -> World -> list byte * option error) : Env :=
  mkEnv (pesign_NewPCRSigner env) (pesign_NewSecureBootSigner env) (pesign_NewSigner env)
    (pesign_Sign env) (os_MkdirTemp env) (os_RemoveAll env) (os_WriteFile env)
    f (filepath_Join env) (constants_Name env)
    (constants_OSReleaseFor env) (constants_PEMTypeRSAPublic env) (constants_UKIPCR env)
    (common_Logo env) (DiscoverKernelVersion env) (GetSBAT env) (PublicRSAKey env)
    (x509_MarshalPKIXPublicKey env) (pem_EncodeToMemory env)
    (measure_GenerateSignedPCR env) (json_Marshal env) (assemble_UKI env).

Module MoreRuns.

(** The boot stub holds no SBAT section. *)
Definition env_no_sbat : Env :=
  with_GetSBAT SampleRuns.env_no_version
    (fun _ _ => inr (collaborator_error "no .sbat section in stub")).

(** The signer refuses every binary. *)
Definition env_sign_fails : Env :=
  with_Sign SampleRuns.env_no_version
    (fun _ _ _ _ _ => Err (collaborator_error "sign: bad key")).

(** The splash file can be read in part only. *)
Definition env_partial_splash : Env :=
  with_ReadFile SampleRuns.env_no_version
    (fun _ _ => ([x42; x4d], Some (collaborator_error "read splash.bmp: input/output error"))).

(** A builder as the generators find it, with an os-release file
    supplied. *)
Definition builder_osrel : Builder :=
  set_scratchDir
    (set_Logger
       (mkBuilder "amd64" "v1.0" "linuxx64.efi.stub" "" "vmlinuz" "initrd.img"
          "console=ttyS0 reboot=k" "/etc/os-release" (Some (CertificateSignerRef 0)) "" ""
          (Some (RSAKeyRef 0)) "" "" "systemd-bootx64.signed.efi" "uki.signed.efi"
          None "debug" [] "" None "")
       (Some slog_Default))
    "/tmp/ukify42".

End MoreRuns.

(** The settings a client gives a builder, signers and logger apart. *)
Definition same_settings (b b' : Builder) : Prop :=
  Arch b' = Arch b /\ Version b' = Version b /\ SdStubPath b' = SdStubPath b /\
  SdBootPath b' = SdBootPath b /\ KernelPath b' = KernelPath b /\
  InitrdPath b' = InitrdPath b /\ Cmdline b' = Cmdline b /\
  OsRelease b' = OsRelease b /\ SBKey b' = SBKey b /\ SBCert b' = SBCert b /\
  PCRKey b' = PCRKey b /\ Splash b' = Splash b /\
  OutSdBootPath b' = OutSdBootPath b /\ OutUKIPath b' = OutUKIPath b /\
  LogLevel b' = LogLevel b.

Definition is_NewPCRSigner (ev : event) : Prop :=
  match ev with EvNewPCRSigner _ => True | _ => False end.

Definition is_NewSecureBootSigner (ev : event) : Prop :=
  match ev with EvNewSecureBootSigner _ _ => True | _ => False end.

(** The sections one successful run of the nine generators appends, for
    the settings [cfg], the scratch directory [d], and whether the kernel
    version was found. *)
Definition expected_sections (env : Env) (cfg : Builder) (d : string) (uname : bool)
  : list UkiSection :=
  [ mkSection constants.OSRel
      (if String.eqb (OsRelease cfg) "" then filepath_Join env d "os-release"
       else OsRelease cfg) true true;
    mkSection constants.CMDLine (filepath_Join env d "cmdline") true true;
    mkSection constants.Initrd (InitrdPath cfg) true true;
    mkSection constants.Splash (filepath_Join env d "splash.bmp") true true ] ++
  (if uname then [ mkSection constants.Uname (filepath_Join env d "uname") true true ]
   else []) ++
  [ mkSection constants.SBAT (filepath_Join env d "sbat") true false;
    mkSection constants.PCRPKey (filepath_Join env d "pcr-public.pem") true true;
    mkSection constants.Linux (KernelPath cfg) true true;
    mkSection constants.PCRSig (filepath_Join env d "pcrpsig") false true ].


(** A PE signer that returns, with or without an error. *)
Definition Sign_returns (env : Env) : Prop :=
  forall receiver input output logger w,
    pesign_Sign env receiver input output logger w <> Panic.

(** The files the generators write, by name. *)
Definition scratch_file_names : list string :=
  [ "os-release"; "cmdline"; "splash.bmp"; "uname"; "sbat"; "pcr-public.pem"; "pcrpsig" ].

(** An event that, if it is a call of [os.WriteFile], writes one of
    these files of directory [d]. *)
Definition writes_scratch_file (env : Env) (d : string) (ev : event) : Prop :=
  match ev with
  | EvWriteFile p _ _ =>
      exists name, In name scratch_file_names /\ p = filepath_Join env d name
  | _ => True
  end.

(** A step that keeps the scratch directory and writes only there. *)
Definition confined (env : Env) (s s' : State) : Prop :=
  scratchDir (fst s') = scratchDir (fst s) /\
  exists evs,
    trace (snd s') = trace (snd s) ++ evs /\
    Forall (writes_scratch_file env (scratchDir (fst s))) evs.

(** An event that, if it is the diagnostic print of the measurements,
    belongs to a builder whose [LogLevel] is exactly "debug". *)
Definition print_only_in_debug (b : Builder) (ev : event) : Prop :=
  match ev with
  | EvPrintSystemdMeasurements phases _ key =>
      LogLevel b = "debug" /\ phases = "enter-initrd:leave-initrd:sysinit:ready" /\
      key = PCRKey b
  | _ => True
  end.

Definition prints_in_debug (s s' : State) : Prop :=
  LogLevel (fst s') = LogLevel (fst s) /\ PCRKey (fst s') = PCRKey (fst s) /\
  exists evs,
    trace (snd s') = trace (snd s) ++ evs /\
    Forall (print_only_in_debug (fst s)) evs.

(** An event of the set-up of [Build]: the log level, the loading of a
    signer, the scratch directory. *)
Definition setup_event (ev : event) : Prop :=
  match ev with
  | EvSetLogLoggerLevel _ | EvNewPCRSigner _ | EvNewSecureBootSigner _ _
  | EvMkdirTemp _ _ _ => True
  | _ => False
  end.

(** The calls and log lines of lines 131-146 when systemd-boot is signed
    by signer [sg], made from the Secure-Boot signer [sb]. *)
Definition sdboot_signing (b : Builder) (sb : option CertificateSigner) (sg : Signer) :
  list event :=
  [ EvLog slog_Default LevelInfo "Signing systemd-boot";
    EvNewSigner sb;
    EvSign (Some sg) (SdBootPath b) (OutSdBootPath b);
    EvLog slog_Default LevelInfo "Signed systemd-boot" ].

(** A method that changes the builder only when it returns nil. *)
Definition atomic (m : M unit) : Prop :=
  forall s, fst (m s) <> Ok tt -> fst (snd (m s)) = fst s.
Lemma allowed_signer strict measuring b b' ev :
  (strict = true -> peSigner b' = peSigner b) ->
  allowed strict measuring b' ev -> allowed strict measuring b ev.
Proof.
  intros Hs. destruct ev; simpl; auto.
  intros H Hst. rewrite <- (Hs Hst). auto.
Qed.

Lemma frame_refl strict measuring appending s : frame strict measuring appending s s.
Proof.
  constructor; auto.
  - exists []. rewrite app_nil_r. auto.
  - exists []. rewrite app_nil_r. auto.
Qed.

Lemma frame_trans strict measuring appending s1 s2 s3 :
  frame strict measuring appending s1 s2 ->
  frame strict measuring appending s2 s3 ->
  frame strict measuring appending s1 s3.
Proof.
  intros [c1 g1 (l1 & e1 & f1 & n1) (v1 & t1 & a1) lv1]
         [c2 g2 (l2 & e2 & f2 & n2) (v2 & t2 & a2) lv2].
  constructor.
  - congruence.
  - intros H. rewrite (g2 H). auto.
  - exists (l1 ++ l2). rewrite e2, e1, app_assoc. repeat split; auto.
    + apply Forall_app; auto.
    + intros H. rewrite (n1 H), (n2 H). reflexivity.
  - exists (v1 ++ v2). rewrite t2, t1, app_assoc. split; auto.
    apply Forall_app. split; auto.
    eapply Forall_impl; [exact a2 |]. intros ev. apply allowed_signer. exact g1.
  - congruence.
Qed.


Section Stable.

Variables strict measuring appending : bool.

Let fr := frame strict measuring appending.

Lemma stable_bind {A B} (m : M A) (k : A -> M B) :
  stable fr m -> (forall a, stable fr (k a)) -> stable fr (bind m k).
Proof.
  intros Hm Hk s. unfold bind. specialize (Hm s).
  destruct (m s) as [[a | e |] s1]; simpl in *; auto.
  eapply frame_trans; [exact Hm | apply Hk].
Qed.

Lemma stable_ret {A} (a : A) : stable fr (ret a).
Proof. intros s. apply frame_refl. Qed.

Lemma stable_throw {A} e : stable fr (@throw A e).
Proof. intros s. apply frame_refl. Qed.

Lemma stable_panic {A} : stable fr (@panic A).
Proof. intros s. apply frame_refl. Qed.

Lemma stable_getB : stable fr getB.
Proof. intros s. apply frame_refl. Qed.

Lemma stable_getW : stable fr getW.
Proof. intros s. apply frame_refl. Qed.

Lemma stable_lift_sum {A} (r : A + error) : stable fr (lift_sum r).
Proof. destruct r; intros s; apply frame_refl. Qed.

Lemma stable_wrapErr {A} prefix (m : M A) : stable fr m -> stable fr (wrapErr prefix m).
Proof.
  intros Hm s. unfold wrapErr. specialize (Hm s).
  destruct (m s) as [[a | e |] s1]; simpl in *; auto.
Qed.

Lemma stable_emit ev :
  (forall b, allowed strict measuring b ev) -> stable fr (modifyW (emit ev)).
Proof.
  intros Hev [b w]. constructor; simpl; auto.
  - exists []. rewrite app_nil_r. auto.
  - exists [ev]. auto.
Qed.

Lemma stable_logger_log l msg : stable fr (logger_log l msg).
Proof.
  intros [b w]. unfold logger_log. simpl.
  destruct (Logger b); [| apply frame_refl].
  constructor; simpl; auto.
  - exists []. rewrite app_nil_r. auto.
  - exists [EvLog s l msg]. split; auto. constructor; simpl; auto.
Qed.

Lemma stable_WriteFile env path data : stable fr (WriteFile env path data).
Proof.
  intros [b w]. unfold WriteFile. simpl.
  destruct (os_WriteFile env path data w) as [e |]; constructor; simpl; auto.
  - exists []. rewrite app_nil_r. auto.
  - eexists. split; [reflexivity |]. constructor; simpl; auto.
  - exists []. rewrite app_nil_r. auto.
  - eexists. split; [reflexivity |]. constructor; simpl; auto.
Qed.

Lemma stable_ReadFile env path : stable fr (ReadFile env path).
Proof.
  intros [b w]. constructor; simpl; auto.
  - exists []. rewrite app_nil_r. auto.
  - exists [EvReadFile path]. split; auto. constructor; simpl; auto.
Qed.

Lemma stable_appendSection sec :
  appending = true -> pcrsig_unmeasured sec -> stable fr (appendSection sec).
Proof.
  intros Ha Hs [b w]. constructor; simpl; auto.
  - exists [sec]. repeat split; auto. congruence.
  - exists []. rewrite app_nil_r. auto.
Qed.

End Stable.

Create HintDb stable_db.

Ltac stable_step :=
  first
    [ apply stable_bind; [| intros ?]
    | apply stable_ret | apply stable_throw | apply stable_panic
    | apply stable_getB | apply stable_getW | apply stable_lift_sum
    | apply stable_logger_log | apply stable_WriteFile | apply stable_ReadFile
    | apply stable_wrapErr
    | apply stable_emit; [intros ?; simpl; solve [auto]]
    | apply stable_appendSection; [reflexivity | unfold pcrsig_unmeasured; simpl; congruence]
    | solve [auto with stable_db]
    | match goal with
      | |- stable _ (if ?c then _ else _) => destruct c
      | |- stable _ (match ?x with _ => _ end) => destruct x
      end ].

Ltac stable_tac := cbv zeta; repeat (stable_step; cbv zeta).

Section GeneratorFrames.

Variable env : Env.

Lemma generateOSRel_frame : stable (frame true false true) (generateOSRel env).
Proof. unfold generateOSRel. stable_tac. Qed.

Lemma generateCmdline_frame : stable (frame true false true) (generateCmdline env).
Proof. unfold generateCmdline. stable_tac. Qed.

Lemma generateInitrd_frame : stable (frame true false true) generateInitrd.
Proof. unfold generateInitrd. stable_tac. Qed.

Lemma generateSplash_frame : stable (frame true false true) (generateSplash env).
Proof. unfold generateSplash. stable_tac. Qed.

Lemma generateUname_frame : stable (frame true false true) (generateUname env).
Proof. unfold generateUname. stable_tac. Qed.

Lemma generateSBAT_frame : stable (frame true false true) (generateSBAT env).
Proof. unfold generateSBAT. stable_tac. Qed.

Lemma generatePCRPublicKey_frame : stable (frame true false true) (generatePCRPublicKey env).
Proof. unfold generatePCRPublicKey. stable_tac. Qed.

Lemma generateKernel_frame : stable (frame true false true) generateKernel.
Proof. unfold generateKernel. stable_tac. Qed.

Lemma generatePCRSig_frame : stable (frame true true true) (generatePCRSig env).
Proof. unfold generatePCRSig. stable_tac. Qed.

End GeneratorFrames.

Lemma frame_mono strict measuring appending strict' measuring' appending' s s' :
  (strict' = true -> strict = true) ->
  (measuring = true -> measuring' = true) ->
  (appending = true -> appending' = true) ->
  frame strict measuring appending s s' -> frame strict' measuring' appending' s s'.
Proof.
  intros Hs Hm Ha [c g (l & e & f & n) (v & t & a) lv].
  constructor; auto.
  - exists l. repeat split; auto. intros H. apply n.
    destruct appending; auto. specialize (Ha eq_refl). congruence.
  - exists v. split; auto. eapply Forall_impl; [exact a |].
    intros ev. destruct ev; simpl; auto.
    intros H. destruct strict'; auto. rewrite (Hs eq_refl) in H. discriminate.
Qed.

Lemma stable_mono {A} strict measuring appending strict' measuring' appending' (m : M A) :
  (strict' = true -> strict = true) ->
  (measuring = true -> measuring' = true) ->
  (appending = true -> appending' = true) ->
  stable (frame strict measuring appending) m ->
  stable (frame strict' measuring' appending') m.
Proof. intros Hs Hm Ha H s. eapply frame_mono; eauto. Qed.

(** Running a method on an explicit state, one match at a time. *)
Ltac run_unfold :=
  cbv beta iota zeta delta
    [bind ret throw panic getB getW modifyB modifyW logger_log slog_log
     appendSection lift_sum WriteFile ReadFile wrapErr fst snd] in *;
  cbn [Logger sections scratchDir peSigner unsignedUKIPath PCRSigner
       SecureBootSigner SdBootPath OsRelease Splash Cmdline KernelPath
       InitrdPath SdStubPath LogLevel PCRKey SBKey SBCert Version
       OutSdBootPath OutUKIPath Arch
       set_sections set_Logger set_PCRSigner set_SecureBootSigner
       set_scratchDir set_peSigner set_unsignedUKIPath
       trace files dirs slogLevel emit set_files set_dirs set_slogLevel] in *.

Ltac run_case :=
  match goal with
  | H : context [match ?x with _ => _ end] |- _ =>
      lazymatch x with
      | context [match _ with _ => _ end] => fail
      | _ => destruct x eqn:?
      end
  | H : (_, _) = (_, _) |- _ => progress simplify_eq
  end.

Ltac run := run_unfold; repeat (run_case; try discriminate; run_unfold).



Section BuildFrames.

Variable env : Env.
Variables strict measuring appending : bool.

Lemma assemble_frame : stable (frame strict measuring appending) (assemble env).
Proof.
  intros [b w]. unfold assemble. simpl.
  destruct (assemble_UKI env (SdStubPath b) (sections b) w); constructor; simpl; auto.
  - exists []. rewrite app_nil_r. auto.
  - eexists. split; [reflexivity |]. constructor; simpl; auto.
  - exists []. rewrite app_nil_r. auto.
  - eexists. split; [reflexivity |]. constructor; simpl; auto.
Qed.

Lemma Sign_frame input output : stable (frame strict measuring appending) (Sign env input output).
Proof.
  intros [b w]. unfold Sign. constructor; simpl; auto.
  - exists []. rewrite app_nil_r. auto.
  - eexists. split; [reflexivity |]. constructor; simpl; auto.
Qed.

Lemma newPESigner_frame : stable (frame false measuring appending) (newPESigner env).
Proof.
  intros [b w]. unfold newPESigner. simpl.
  destruct (pesign_NewSigner env (SecureBootSigner b) w); constructor; simpl; auto;
    try discriminate.
  - exists []. rewrite app_nil_r. auto.
  - eexists. split; [reflexivity |]. constructor; simpl; auto.
  - exists []. rewrite app_nil_r. auto.
  - eexists. split; [reflexivity |]. constructor; simpl; auto.
Qed.

Lemma run_generators_frame gs :
  Forall (stable (frame strict measuring appending)) gs ->
  stable (frame strict measuring appending) (run_generators gs).
Proof.
  induction 1 as [| g gs Hg _ IH]; simpl.
  - apply stable_ret.
  - apply stable_bind; [apply stable_wrapErr; exact Hg | intros _; exact IH].
Qed.

End BuildFrames.

#[local] Hint Resolve assemble_frame Sign_frame newPESigner_frame : stable_db.

Section BodyFrames.

Variable env : Env.

Lemma generators_split : generators env = payload_generators env ++ [generatePCRSig env].
Proof. reflexivity. Qed.

Lemma run_generators_app g1 g2 s :
  run_generators (g1 ++ g2) s = (run_generators g1 ;;; run_generators g2) s.
Proof.
  revert s. induction g1 as [| g g1 IH]; intros s; simpl.
  - reflexivity.
  - unfold bind. destruct (wrapErr _ g s) as [[a | e |] s1]; auto.
Qed.

Lemma payload_generators_frame :
  Forall (stable (frame true false true)) (payload_generators env).
Proof.
  unfold payload_generators.
  repeat (constructor;
          [solve [auto using generateOSRel_frame, generateCmdline_frame,
                    generateInitrd_frame, generateSplash_frame, generateUname_frame,
                    generateSBAT_frame, generatePCRPublicKey_frame,
                    generateKernel_frame] |]).
  constructor.
Qed.

Lemma generators_frame : Forall (stable (frame true true true)) (generators env).
Proof.
  rewrite generators_split. apply Forall_app. split.
  - eapply Forall_impl; [apply payload_generators_frame |].
    intros g Hg. eapply stable_mono; [| | | exact Hg]; auto.
  - constructor; [apply generatePCRSig_frame | constructor].
Qed.

Lemma signSdBoot_frame measuring appending :
  stable (frame false measuring appending) (signSdBoot env).
Proof. unfold signSdBoot, slog_log. stable_tac. Qed.

Lemma signSdBoot_strict measuring appending s :
  SdBootPath (fst s) = "" ->
  frame true measuring appending s (snd (signSdBoot env s)).
Proof.
  intros H. unfold signSdBoot, bind, getB. simpl. rewrite H. simpl.
  apply stable_logger_log.
Qed.

Lemma assembleAndSign_frame strict measuring appending :
  stable (frame strict measuring appending) (assembleAndSign env).
Proof. unfold assembleAndSign. stable_tac. Qed.

Lemma Build_body_frame : stable (frame false true true) (Build_body env).
Proof.
  unfold Build_body.
  apply stable_bind; [apply signSdBoot_frame | intros _].
  apply stable_bind; [apply stable_logger_log | intros _].
  apply stable_bind; [| intros _; apply assembleAndSign_frame].
  apply run_generators_frame.
  eapply Forall_impl; [apply generators_frame |].
  intros g Hg. eapply stable_mono; [| | | exact Hg]; auto.
Qed.

Lemma Build_body_strict s :
  SdBootPath (fst s) = "" -> frame true true true s (snd (Build_body env s)).
Proof.
  intros H. unfold Build_body. unfold bind at 1.
  pose proof (signSdBoot_strict true true s H) as F1.
  destruct (signSdBoot env s) as [[a | e |] s1]; cbn [fst snd] in *; auto.
  eapply frame_trans; [exact F1 |].
  match goal with |- frame _ _ _ _ (snd (?m s1)) => assert (Hm : stable (frame true true true) m) end.
  { apply stable_bind; [apply stable_logger_log | intros _].
    apply stable_bind; [| intros _; apply assembleAndSign_frame].
    apply run_generators_frame, generators_frame. }
  apply Hm.
Qed.

End BodyFrames.

(** ** The prelude and the deferred closure, case by case *)

Section Prelude.

Variable env : Env.

Lemma Build_prelude_spec b w r b1 w1 :
  Build_prelude env (b, w) = (r, (b1, w1)) ->
  sections b1 = sections b /\ peSigner b1 = peSigner b /\
  unsignedUKIPath b1 = unsignedUKIPath b /\ SdBootPath b1 = SdBootPath b /\
  KernelPath b1 = KernelPath b /\
  Logger b1 = Some (loggerOrDefault (Logger b)) /\
  slogLevel w1 = selectLevel (LogLevel b) /\
  files w1 = files w /\
  (exists evs,
      trace w1 = trace w ++ EvSetLogLoggerLevel (selectLevel (LogLevel b)) :: evs /\
      Forall prelude_event evs /\
      (forall d, In (EvMkdirTemp "" "ukify" (inl d)) evs -> r = Ok tt /\ scratchDir b1 = d) /\
      (r = Ok tt -> In (EvMkdirTemp "" "ukify" (inl (scratchDir b1))) evs)) /\
  (r = Ok tt -> dirs w1 = {[scratchDir b1]} ∪ dirs w) /\
  (r <> Ok tt -> dirs w1 = dirs w).
Proof.
  unfold Build_prelude, configureLogging, resolvePCRSigner, resolveSecureBootSigner,
    acquireScratch, slog_SetLogLoggerLevel.
  intros H. run.
  all: repeat split; try reflexivity; try congruence.
  all: try (eexists; split; [repeat rewrite <- app_assoc; reflexivity |]).
  all: simpl; repeat split; auto; try (intros; intuition congruence).
  all: repeat constructor; simpl; auto.
Qed.

End Prelude.

Section Cleanup.

Variable env : Env.

Lemma deferred_cleanup_spec b w :
  let r := os_RemoveAll env (scratchDir b) w in
  let out := deferred_cleanup env (b, w) in
  fst out = r /\ fst (snd out) = b /\
  slogLevel (snd (snd out)) = slogLevel w /\
  trace (snd (snd out)) =
    trace w ++ EvRemoveAll (scratchDir b) r ::
      match r with
      | None => []
      | Some e => [EvLogPrintf "failed to remove scratch dir: %v" e]
      end /\
  (r = None -> scratchDir b ∉ dirs (snd (snd out))).
Proof.
  unfold deferred_cleanup, RemoveAll. cbn [fst snd].
  destruct (os_RemoveAll env (scratchDir b) w) as [e |];
    cbn [fst snd trace slogLevel dirs emit set_dirs set_files].
  - repeat split; auto.
    + rewrite <- app_assoc. reflexivity.
    + discriminate.
  - repeat split; auto. intros _.
    rewrite elem_of_difference, elem_of_singleton. tauto.
Qed.

Lemma Build_unfold s :
  Build env s =
  match Build_prelude env s with
  | (Ok _, s1) =>
      (fst (Build_body env s1), snd (deferred_cleanup env (snd (Build_body env s1))))
  | (Err e, s1) => (Err e, s1)
  | (Panic, s1) => (Panic, s1)
  end.
Proof. reflexivity. Qed.

End Cleanup.

Lemma new_events_app w w' evs : trace w' = trace w ++ evs -> new_events w w' = evs.
Proof. intros H. unfold new_events. rewrite H. apply drop_app_length. Qed.

(** ** What a successful generator appended *)

Lemma bind_Ok {A B} (m : M A) (k : A -> M B) s b s' :
  bind m k s = (Ok b, s') -> exists a s1, m s = (Ok a, s1) /\ k a s1 = (Ok b, s').
Proof.
  unfold bind. destruct (m s) as [[a | e |] s1]; intros H; try discriminate.
  eauto.
Qed.

Lemma wrapErr_Ok {A} prefix (m : M A) s a s' :
  wrapErr prefix m s = (Ok a, s') -> m s = (Ok a, s').
Proof.
  unfold wrapErr. destruct (m s) as [[a' | e |] s1]; intros H; try discriminate; auto.
Qed.

Section GeneratorResults.

Variable env : Env.

Lemma generateOSRel_Ok b w b' w' :
  generateOSRel env (b, w) = (Ok tt, (b', w')) ->
  exists p, b' = set_sections b (sections b ++ [mkSection constants.OSRel p true true]).
Proof. unfold generateOSRel. intros H. run; eexists; reflexivity. Qed.

Lemma generateCmdline_Ok b w b' w' :
  generateCmdline env (b, w) = (Ok tt, (b', w')) ->
  b' = set_sections b (sections b ++
    [mkSection constants.CMDLine (filepath_Join env (scratchDir b) "cmdline") true true]).
Proof. unfold generateCmdline. intros H. run. reflexivity. Qed.

Lemma generateInitrd_Ok b w b' w' :
  generateInitrd (b, w) = (Ok tt, (b', w')) ->
  b' = set_sections b (sections b ++ [mkSection constants.Initrd (InitrdPath b) true true]).
Proof. unfold generateInitrd. intros H. run. reflexivity. Qed.

Lemma generateSplash_Ok b w b' w' :
  generateSplash env (b, w) = (Ok tt, (b', w')) ->
  b' = set_sections b (sections b ++
    [mkSection constants.Splash (filepath_Join env (scratchDir b) "splash.bmp") true true]).
Proof. unfold generateSplash. intros H. run; reflexivity. Qed.

Lemma generateUname_Ok b w b' w' :
  generateUname env (b, w) = (Ok tt, (b', w')) ->
  b' = b /\ fst (DiscoverKernelVersion env (KernelPath b) w) = "" \/
  b' = set_sections b (sections b ++
    [mkSection constants.Uname (filepath_Join env (scratchDir b) "uname") true true]) /\
  fst (DiscoverKernelVersion env (KernelPath b) w) <> "".
Proof.
  unfold generateUname. intros H. run.
  - left. split; auto. apply String.eqb_eq. assumption.
  - right. split; auto. apply String.eqb_neq. assumption.
Qed.

Lemma generateSBAT_Ok b w b' w' :
  generateSBAT env (b, w) = (Ok tt, (b', w')) ->
  b' = set_sections b (sections b ++
    [mkSection constants.SBAT (filepath_Join env (scratchDir b) "sbat") true false]).
Proof. unfold generateSBAT. intros H. run. reflexivity. Qed.

Lemma generatePCRPublicKey_Ok b w b' w' :
  generatePCRPublicKey env (b, w) = (Ok tt, (b', w')) ->
  b' = set_sections b (sections b ++
    [mkSection constants.PCRPKey (filepath_Join env (scratchDir b) "pcr-public.pem") true true]).
Proof. unfold generatePCRPublicKey. intros H. run. reflexivity. Qed.

Lemma generateKernel_Ok b w b' w' :
  generateKernel (b, w) = (Ok tt, (b', w')) ->
  b' = set_sections b (sections b ++ [mkSection constants.Linux (KernelPath b) true true]).
Proof. unfold generateKernel. intros H. run. reflexivity. Qed.

Lemma generatePCRSig_Ok b w b' w' :
  generatePCRSig env (b, w) = (Ok tt, (b', w')) ->
  b' = set_sections b (sections b ++
    [mkSection constants.PCRSig (filepath_Join env (scratchDir b) "pcrpsig") false true]).
Proof. unfold generatePCRSig. intros H. run; reflexivity. Qed.

End GeneratorResults.

(** ** The section list of a successful build *)

Lemma frame_sections_kept strict measuring s s' :
  frame strict measuring false s s' -> sections (fst s') = sections (fst s).
Proof.
  intros [_ _ (l & e & _ & n) _ _]. rewrite e, (n eq_refl), app_nil_r. reflexivity.
Qed.

Lemma frame_KernelPath strict measuring appending s s' :
  frame strict measuring appending s s' -> KernelPath (fst s') = KernelPath (fst s).
Proof. intros [c _ _ _ _]. apply (f_equal KernelPath) in c. exact c. Qed.

Lemma frame_scratchDir strict measuring appending s s' :
  frame strict measuring appending s s' -> scratchDir (fst s') = scratchDir (fst s).
Proof. intros [c _ _ _ _]. apply (f_equal scratchDir) in c. exact c. Qed.

Lemma frame_Logger strict measuring appending s s' :
  frame strict measuring appending s s' -> Logger (fst s') = Logger (fst s).
Proof. intros [c _ _ _ _]. apply (f_equal Logger) in c. exact c. Qed.

Section BuildResults.

Variable env : Env.

Lemma run_generators_Ok s s' :
  run_generators (generators env) s = (Ok tt, s') ->
  exists gen uname,
    sections (fst s') = sections (fst s) ++ gen /\
    map signature gen = build_layout uname /\
    version_found env (KernelPath (fst s)) uname.
Proof.
  unfold generators. cbn [run_generators]. intros H.
  destruct s as [b0 w0].
  repeat (apply bind_Ok in H; destruct H as ([] & [? ?] & ? & H)).
  repeat match goal with
         | H : wrapErr _ _ _ = _ |- _ => apply wrapErr_Ok in H
         end.
  unfold ret in H. simplify_eq. cbn [fst].
  repeat match goal with
         | H : generateOSRel _ _ = _ |- _ => apply generateOSRel_Ok in H; destruct H as [? H]
         | H : generateCmdline _ _ = _ |- _ => apply generateCmdline_Ok in H
         | H : generateInitrd _ = _ |- _ => apply generateInitrd_Ok in H
         | H : generateSplash _ _ = _ |- _ => apply generateSplash_Ok in H
         | H : generateSBAT _ _ = _ |- _ => apply generateSBAT_Ok in H
         | H : generatePCRPublicKey _ _ = _ |- _ => apply generatePCRPublicKey_Ok in H
         | H : generateKernel _ = _ |- _ => apply generateKernel_Ok in H
         | H : generatePCRSig _ _ = _ |- _ => apply generatePCRSig_Ok in H
         end.
  match goal with
  | H : generateUname _ _ = _ |- _ => apply generateUname_Ok in H; destruct H as [[Hb Hu] | [Hb Hu]]
  end; subst; cbn [sections set_sections KernelPath] in *; repeat rewrite <- app_assoc.
  - eexists. exists false.
    split; [reflexivity | split; [reflexivity | eexists; exact Hu]].
  - eexists. exists true.
    split; [reflexivity | split; [reflexivity | eexists; exact Hu]].
Qed.

Lemma Build_body_Ok s s' :
  Build_body env s = (Ok tt, s') ->
  exists gen uname,
    sections (fst s') = sections (fst s) ++ gen /\
    map signature gen = build_layout uname /\
    version_found env (KernelPath (fst s)) uname.
Proof.
  unfold Build_body. intros H.
  apply bind_Ok in H. destruct H as ([] & s1 & H1 & H).
  apply bind_Ok in H. destruct H as ([] & s2 & H2 & H).
  apply bind_Ok in H. destruct H as ([] & s3 & H3 & H).
  pose proof (signSdBoot_frame env false false s) as F1. rewrite H1 in F1.
  pose proof (stable_logger_log false false false LevelInfo "Generating UKI sections" s1) as F2.
  rewrite H2 in F2.
  pose proof (assembleAndSign_frame env false false false s3) as F4. rewrite H in F4.
  pose proof (frame_KernelPath _ _ _ _ _ F1) as K1.
  pose proof (frame_KernelPath _ _ _ _ _ F2) as K2.
  apply frame_sections_kept in F1, F2, F4. cbn [snd] in *.
  apply run_generators_Ok in H3. destruct H3 as (gen & uname & E & L & V).
  exists gen, uname. repeat split; auto; congruence.
Qed.

Lemma Build_Ok b w b' w' :
  Build env (b, w) = (Ok tt, (b', w')) ->
  exists gen uname,
    sections b' = sections b ++ gen /\
    map signature gen = build_layout uname /\
    version_found env (KernelPath b) uname.
Proof.
  rewrite Build_unfold. intros H.
  destruct (Build_prelude env (b, w)) as [[[] | e |] [b1 w1]] eqn:HP; try discriminate.
  apply Build_prelude_spec in HP. destruct HP as (E1 & _ & _ & _ & K1 & _).
  destruct (Build_body env (b1, w1)) as [r [b2 w2]] eqn:HB.
  cbn [fst snd] in H.
  pose proof (deferred_cleanup_spec env b2 w2) as (_ & E3 & _).
  cbv zeta in E3.
  destruct (deferred_cleanup env (b2, w2)) as [e3 [b3 w3]]. cbn [fst snd] in *.
  simplify_eq.
  apply Build_body_Ok in HB. cbn [fst] in HB. rewrite E1, K1 in HB. exact HB.
Qed.

End BuildResults.



(** * Properties of the build *)



Lemma length_list_byte_of_string s : length (list_byte_of_string s) = String.length s.
Proof.
  unfold list_byte_of_string. rewrite length_map.
  induction s as [| c s IH]; cbn; auto.
Qed.

(** C8. The command-line generator writes the configured string's bytes,
    all of them and nothing else, to the file of the section it appends:
    whenever the write succeeds the generator returns nil, the appended
    section is (CMDLine, scratch/cmdline, Measure, Append), and the file
    holds exactly [[]byte(Cmdline)], which converts back to the string and
    has its length.  For "console=ttyS0 reboot=k" these are the 22 bytes of
    that string, the last one being 'k'. *)
Theorem generateCmdline_writes_verbatim env b w lg :
  Logger b = Some lg ->
  let path := filepath_Join env (scratchDir b) "cmdline" in
  let content := list_byte_of_string (Cmdline b) in
  os_WriteFile env path content (emit (EvLog lg LevelDebug "Using cmdline") w) = None ->
  exists w',
    generateCmdline env (b, w) =
      (Ok tt, (set_sections b (sections b ++ [mkSection constants.CMDLine path true true]), w')) /\
    files w' !! path = Some content /\
    string_of_list_byte content = Cmdline b /\
    length content = String.length (Cmdline b) /\
    (Cmdline b = "console=ttyS0 reboot=k" ->
     files w' !! path =
       Some [x63; x6f; x6e; x73; x6f; x6c; x65; x3d; x74; x74; x79; x53; x30; x20;
             x72; x65; x62; x6f; x6f; x74; x3d; x6b]).
Proof.
  intros HL path content HW. subst path content.
  unfold generateCmdline. run_unfold. rewrite HL. run_unfold. rewrite HW. run_unfold.
  eexists. split; [reflexivity |]. cbn [files set_files].
  rewrite lookup_insert_eq. repeat split.
  - apply string_of_list_byte_of_string.
  - apply length_list_byte_of_string.
  - intros ->. reflexivity.
Qed.

Lemma generateCmdline_writes_verbatim_witness :
  exists w',
    generateCmdline SampleRuns.env_no_version (SampleRuns.builder_splash, Sample.world0) =
      (Ok tt,
       (set_sections SampleRuns.builder_splash
          (sections SampleRuns.builder_splash ++
             [mkSection constants.CMDLine "/tmp/ukify42/cmdline" true true]), w')) /\
    files w' !! "/tmp/ukify42/cmdline" = Some (list_byte_of_string "console=ttyS0 reboot=k") /\
    string_of_list_byte (list_byte_of_string "console=ttyS0 reboot=k") =
      "console=ttyS0 reboot=k" /\
    length (list_byte_of_string "console=ttyS0 reboot=k") = 22 /\
    ("console=ttyS0 reboot=k" = "console=ttyS0 reboot=k" ->
     files w' !! "/tmp/ukify42/cmdline" =
       Some [x63; x6f; x6e; x73; x6f; x6c; x65; x3d; x74; x74; x79; x53; x30; x20;
             x72; x65; x62; x6f; x6f; x74; x3d; x6b]).
Proof.
  apply (generateCmdline_writes_verbatim SampleRuns.env_no_version
           SampleRuns.builder_splash Sample.world0 slog_Default).
  - reflexivity.
  - reflexivity.
Defined.





(** ** Signer resolution *)

(** C2, as stated, fails: with no Secure-Boot material at all, a PCR key
    path whose key does not load makes [Build] return the loader's error,
    which is neither of the two configuration errors. *)
Lemma missing_secureboot_not_configuration_error :
  missing_SecureBoot_capability SampleRuns.builder_no_secureboot /\
  ~ fails_with_configuration_error SampleRuns.env_no_key
      SampleRuns.builder_no_secureboot Sample.world0.
Proof.
  split.
  - split; [reflexivity | left; reflexivity].
  - intros (e & He & Hc & _). vm_compute in He.
    injection He as <-. destruct Hc as [Hc | Hc]; discriminate Hc.
Qed.

(** C2, amended.  With both forms of the PCR capability missing, [Build]
    returns the PCR configuration error at once; its only call is the one
    that sets the log level.  With both forms of the Secure-Boot
    capability missing (and the PCR capability configured), [Build]
    returns the Secure-Boot configuration error when the PCR signer is
    supplied or loads from its key path, and the loader's error when it
    does not.  In all these cases [os.MkdirTemp] is never called and the
    directories and files are as before. *)
Theorem Build_missing_capability_fails env b w :
  missing_PCR_capability b \/ missing_SecureBoot_capability b ->
  let out := Build env (b, w) in
  let lvl := selectLevel (LogLevel b) in
  let w_cfg := emit (EvSetLogLoggerLevel lvl) (set_slogLevel lvl w) in
  (exists e,
     fst out = Err e /\
     (missing_PCR_capability b ->
      e = errNoPCRSigner /\ new_events w (snd (snd out)) = [EvSetLogLoggerLevel lvl]) /\
     (~ missing_PCR_capability b ->
      match PCRSigner b with
      | Some _ => e = errNoSecureBootSigner
      | None =>
          match pesign_NewPCRSigner env (PCRKey b) w_cfg with
          | inl _ => e = errNoSecureBootSigner
          | inr e' => e = e'
          end
      end)) /\
  Forall (fun ev => ~ is_MkdirTemp ev) (new_events w (snd (snd out))) /\
  dirs (snd (snd out)) = dirs w /\ files (snd (snd out)) = files w.
Proof.
  intros Hmiss out lvl w_cfg. subst out lvl w_cfg.
  rewrite Build_unfold.
  destruct (Build_prelude env (b, w)) as [rp [b1 w1]] eqn:HP.
  assert (Hcases :
    (PCRSigner b = None /\ (PCRKey b =? "") = true) \/
    (SecureBootSigner b = None /\ (SBCert b =? "") || (SBKey b =? "") = true)).
  { destruct Hmiss as [[H1 H2] | [H1 [H2 | H2]]].
    - left. split; auto. apply String.eqb_eq. exact H2.
    - right. split; auto. apply String.eqb_eq in H2. rewrite H2. reflexivity.
    - right. split; auto. apply String.eqb_eq in H2. rewrite H2. apply orb_true_r. }
  clear Hmiss.
  unfold Build_prelude, configureLogging, resolvePCRSigner, resolveSecureBootSigner,
    acquireScratch, slog_SetLogLoggerLevel in HP.
  unfold missing_PCR_capability.
  run; try (exfalso; destruct Hcases as [[? ?] | [? ?]]; congruence).
  all: cbn [fst snd].
  all: erewrite new_events_app by (cbn [trace emit set_slogLevel]; repeat rewrite <- app_assoc; reflexivity).
  all: split; [| split; [repeat constructor; cbn; tauto | split; reflexivity]].
  all: eexists; split; [reflexivity |]; split;
    [ intros [HN HK];
      first [ discriminate HN
            | split; reflexivity
            | exfalso; apply String.eqb_eq in HK; congruence ]
    | intros Hn;
      first [ reflexivity
            | exfalso; apply Hn; split; [reflexivity | apply String.eqb_eq; assumption] ] ].
Qed.

Lemma Build_missing_capability_fails_witness :
  Forall (fun ev => ~ is_MkdirTemp ev)
    (new_events Sample.world0
       (snd (snd (Build SampleRuns.env_no_key
                    (SampleRuns.builder_no_secureboot, Sample.world0))))) /\
  dirs (snd (snd (Build SampleRuns.env_no_key
                    (SampleRuns.builder_no_secureboot, Sample.world0)))) =
  dirs Sample.world0.
Proof.
  pose proof (Build_missing_capability_fails SampleRuns.env_no_key
                SampleRuns.builder_no_secureboot Sample.world0
                (or_intror (conj eq_refl (or_introl eq_refl)))) as H.
  cbv zeta in H. destruct H as (_ & H1 & H2 & _). split; assumption.
Defined.

(** ** Decomposing a run of Build *)

Lemma Build_inv env b w :
  let out := Build env (b, w) in
  (exists b1 w1,
      Build_prelude env (b, w) = (fst out, (b1, w1)) /\ fst out <> Ok tt /\
      snd out = (b1, w1)) \/
  (exists b1 w1 b2 w2 w3,
      Build_prelude env (b, w) = (Ok tt, (b1, w1)) /\
      Build_body env (b1, w1) = (fst out, (b2, w2)) /\
      snd (deferred_cleanup env (b2, w2)) = (b2, w3) /\
      snd out = (b2, w3)).
Proof.
  cbv zeta. rewrite Build_unfold.
  destruct (Build_prelude env (b, w)) as [[[] | e |] [b1 w1]] eqn:HP.
  - right. destruct (Build_body env (b1, w1)) as [r [b2 w2]] eqn:HB.
    cbn [fst snd].
    pose proof (deferred_cleanup_spec env b2 w2) as (_ & E & _). cbv zeta in E.
    destruct (deferred_cleanup env (b2, w2)) as [e3 [b3 w3]] eqn:HC.
    cbn [fst snd] in *. subst b3.
    exists b1, w1, b2, w2, w3. rewrite HC. repeat split; auto.
  - left. exists b1, w1. cbn [fst snd]. repeat split; auto.
  - left. exists b1, w1. cbn [fst snd]. repeat split; auto.
Qed.

Lemma strings_ToLower_debug :
  forall s, selectLevel s = LevelDebug <-> strings_ToLower s = "debug".
Proof.
  intros s. unfold selectLevel.
  destruct (String.eqb_spec (strings_ToLower s) "debug") as [-> | H1]; [tauto |].
  destruct (String.eqb_spec (strings_ToLower s) "warn") as [-> | H2];
    [split; discriminate |].
  destruct (String.eqb_spec (strings_ToLower s) "error") as [-> | H3];
    split; try discriminate; contradiction.
Qed.

Lemma strings_ToLower_warn :
  forall s, selectLevel s = LevelWarn <-> strings_ToLower s = "warn".
Proof.
  intros s. unfold selectLevel.
  destruct (String.eqb_spec (strings_ToLower s) "debug") as [-> | H1];
    [split; discriminate |].
  destruct (String.eqb_spec (strings_ToLower s) "warn") as [-> | H2]; [tauto |].
  destruct (String.eqb_spec (strings_ToLower s) "error") as [-> | H3];
    split; try discriminate; contradiction.
Qed.

Lemma strings_ToLower_error :
  forall s, selectLevel s = LevelError <-> strings_ToLower s = "error".
Proof.
  intros s. unfold selectLevel.
  destruct (String.eqb_spec (strings_ToLower s) "debug") as [-> | H1];
    [split; discriminate |].
  destruct (String.eqb_spec (strings_ToLower s) "warn") as [-> | H2];
    [split; discriminate |].
  destruct (String.eqb_spec (strings_ToLower s) "error") as [-> | H3]; [tauto |].
  split; try discriminate; contradiction.
Qed.

(** C10. Logging configuration cannot make [Build] fail: its first step
    always returns nil.  After any call the builder's logger is the one
    supplied, or slog's default when none was; slog's process-wide level
    is the one selected from [LogLevel], set by the first call [Build]
    makes and by no later one.  The selection looks at the lower-cased
    string only, so case does not matter: "debug", "warn" and "error" in
    any case select their level, and every other value, the empty string
    included, selects Info. *)
Theorem Build_logging_setup env b w :
  let out := Build env (b, w) in
  let lvl := selectLevel (LogLevel b) in
  fst (configureLogging (b, w)) = Ok tt /\
  Logger (fst (snd out)) = Some (loggerOrDefault (Logger b)) /\
  slogLevel (snd (snd out)) = lvl /\
  (exists evs,
      new_events w (snd (snd out)) = EvSetLogLoggerLevel lvl :: evs /\
      Forall (fun ev => forall l, ev <> EvSetLogLoggerLevel l) evs) /\
  (forall other,
      strings_ToLower other = strings_ToLower (LogLevel b) -> selectLevel other = lvl) /\
  (lvl = LevelDebug <-> strings_ToLower (LogLevel b) = "debug") /\
  (lvl = LevelWarn <-> strings_ToLower (LogLevel b) = "warn") /\
  (lvl = LevelError <-> strings_ToLower (LogLevel b) = "error") /\
  (strings_ToLower (LogLevel b) <> "debug" ->
   strings_ToLower (LogLevel b) <> "warn" ->
   strings_ToLower (LogLevel b) <> "error" -> lvl = LevelInfo) /\
  (LogLevel b = "" -> lvl = LevelInfo) /\
  selectLevel "DEBUG" = LevelDebug /\ selectLevel "Warn" = LevelWarn /\
  selectLevel "eRRoR" = LevelError /\ selectLevel "info" = LevelInfo /\
  selectLevel "verbose" = LevelInfo.
Proof.
  intros out lvl. subst out lvl.
  split.
  { unfold configureLogging. run_unfold. destruct (Logger b); reflexivity. }
  assert (HB :
    Logger (fst (snd (Build env (b, w)))) = Some (loggerOrDefault (Logger b)) /\
    slogLevel (snd (snd (Build env (b, w)))) = selectLevel (LogLevel b) /\
    exists evs,
      new_events w (snd (snd (Build env (b, w)))) =
        EvSetLogLoggerLevel (selectLevel (LogLevel b)) :: evs /\
      Forall (fun ev => forall l, ev <> EvSetLogLoggerLevel l) evs).
  { destruct (Build_inv env b w) as
      [(b1 & w1 & HP & _ & ->) | (b1 & w1 & b2 & w2 & w3 & HP & HBody & HC & ->)];
      apply Build_prelude_spec in HP;
      destruct HP as (_ & _ & _ & _ & _ & HL & HLv & _ & (evs & HT & HF & _) & _);
      cbn [fst snd].
    - repeat split; auto. exists evs. split; [apply new_events_app; exact HT |].
      eapply Forall_impl; [exact HF |].
      intros ev Hev lv; destruct ev; cbn in Hev; congruence.
    - pose proof (Build_body_frame env (b1, w1)) as F. rewrite HBody in F.
      cbn [snd] in F.
      pose proof (frame_Logger _ _ _ _ _ F) as FL.
      destruct F as [_ _ _ (evs2 & HT2 & HF2) FLv]. cbn [fst snd] in *.
      pose proof (deferred_cleanup_spec env b2 w2) as (_ & _ & CLv & CT & _).
      cbv zeta in CLv, CT. rewrite HC in CLv, CT. cbn [snd] in CLv, CT.
      repeat split; try congruence.
      eexists. split.
      + apply new_events_app. rewrite CT, HT2, HT.
        repeat rewrite <- app_assoc. cbn [app]. reflexivity.
      + apply Forall_app. split.
        * eapply Forall_impl; [exact HF |].
          intros ev Hev lv; destruct ev; cbn in Hev; congruence.
        * apply Forall_app. split.
          -- eapply Forall_impl; [exact HF2 |].
             intros ev Hev lv; destruct ev; cbn in Hev; congruence.
          -- destruct (os_RemoveAll env (scratchDir b2) w2);
               repeat constructor; congruence. }
  destruct HB as (H1 & H2 & H3).
  repeat split; auto; try apply strings_ToLower_debug; try apply strings_ToLower_warn;
    try apply strings_ToLower_error.
  - intros other E. unfold selectLevel. rewrite E. reflexivity.
  - intros N1 N2 N3. unfold selectLevel.
    apply String.eqb_neq in N1, N2, N3. rewrite N1, N2, N3. reflexivity.
  - intros ->. reflexivity.
Qed.

(** ** Scratch directory *)

Lemma allowed_not_MkdirTemp strict measuring b ev :
  allowed strict measuring b ev -> ~ is_MkdirTemp ev.
Proof. destruct ev; cbn; auto. Qed.

(** C5. Whenever a run of [Build] created the scratch directory, the
    deferred closure ran on the way out, whatever the outcome (nil, an
    error or a panic): the last file-system call of the run is
    [os.RemoveAll] on that directory, after which the directory is gone
    if the call succeeded; if it failed, the failure is printed to the log
    and that is all.  The value [Build] returns is the one its body
    produced: the removal's error never takes its place. *)
Theorem Build_removes_scratch env b w d :
  let out := Build env (b, w) in
  In (EvMkdirTemp "" "ukify" (inl d)) (new_events w (snd (snd out))) ->
  exists b1 w1 pre r,
    Build_prelude env (b, w) = (Ok tt, (b1, w1)) /\
    scratchDir b1 = d /\ d ∈ dirs w1 /\
    fst out = fst (Build_body env (b1, w1)) /\
    Forall (fun ev => forall p res, ev <> EvRemoveAll p res) pre /\
    new_events w (snd (snd out)) =
      pre ++ EvRemoveAll d r ::
        match r with
        | None => []
        | Some e => [EvLogPrintf "failed to remove scratch dir: %v" e]
        end /\
    (r = None -> d ∉ dirs (snd (snd out))).
Proof.
  intros out Hin. subst out.
  destruct (Build_inv env b w) as
    [(b1 & w1 & HP & Hfail & Hout) | (b1 & w1 & b2 & w2 & w3 & HP & HBody & HC & Hout)];
    pose proof (Build_prelude_spec env _ _ _ _ _ HP) as
      (_ & _ & _ & _ & _ & _ & _ & _ & (evs & HT & HF & Hd & _) & Hdirs & _);
    rewrite Hout in *; cbn [fst snd] in *.
  - exfalso. rewrite (new_events_app _ _ _ HT) in Hin.
    destruct Hin as [Hin | Hin]; [discriminate |].
    apply Hd in Hin. destruct Hin as [Hok _]. contradiction.
  - pose proof (Build_body_frame env (b1, w1)) as F. rewrite HBody in F.
    cbn [snd] in F.
    pose proof (frame_scratchDir _ _ _ _ _ F) as FS.
    destruct F as [_ _ _ (evs2 & HT2 & HF2) _]. cbn [fst snd] in *.
    pose proof (deferred_cleanup_spec env b2 w2) as (_ & _ & _ & CT & CD).
    cbv zeta in CT, CD. rewrite HC in CT, CD. cbn [snd] in CT, CD.
    assert (HN : new_events w w3 =
                 (EvSetLogLoggerLevel (selectLevel (LogLevel b)) :: evs ++ evs2) ++
                 EvRemoveAll (scratchDir b2) (os_RemoveAll env (scratchDir b2) w2) ::
                 match os_RemoveAll env (scratchDir b2) w2 with
                 | None => []
                 | Some e => [EvLogPrintf "failed to remove scratch dir: %v" e]
                 end).
    { apply new_events_app. rewrite CT, HT2, HT.
      repeat rewrite <- app_assoc. cbn [app]. repeat rewrite <- app_assoc.
      reflexivity. }
    assert (Hd1 : scratchDir b1 = d).
    { rewrite HN in Hin. apply in_app_or in Hin. destruct Hin as [Hin | Hin].
      - destruct Hin as [Hin | Hin]; [discriminate |].
        apply in_app_or in Hin. destruct Hin as [Hin | Hin].
        + apply Hd in Hin. tauto.
        + exfalso. rewrite Forall_forall in HF2.
          apply list_elem_of_In in Hin.
          apply HF2 in Hin. exact (allowed_not_MkdirTemp _ _ _ _ Hin I).
      - exfalso. destruct Hin as [Hin | Hin]; [discriminate |].
        destruct (os_RemoveAll env (scratchDir b2) w2); cbn in Hin;
          [destruct Hin as [Hin | []]; discriminate | contradiction]. }
    exists b1, w1,
      (EvSetLogLoggerLevel (selectLevel (LogLevel b)) :: evs ++ evs2),
      (os_RemoveAll env (scratchDir b2) w2).
    rewrite <- Hd1, <- FS.
    split; [exact HP |]. split; [reflexivity |]. split; [| split; [| split; [| split]]];
      auto.
    + rewrite FS, (Hdirs eq_refl). apply elem_of_union. left.
      apply elem_of_singleton. reflexivity.
    + rewrite HBody. reflexivity.
    + constructor; [discriminate |]. apply Forall_app. split.
      * eapply Forall_impl; [exact HF |].
        intros ev Hev p res; destruct ev; cbn in Hev; congruence.
      * eapply Forall_impl; [exact HF2 |].
        intros ev Hev p res; destruct ev; cbn in Hev; congruence.
Qed.

Lemma Build_removes_scratch_witness :
  let run := Build SampleRuns.env_keep_scratch
               (SampleRuns.builder_signed_boot, Sample.world0) in
  fst run = Ok tt /\
  exists pre e,
    new_events Sample.world0 (snd (snd run)) =
      pre ++ [EvRemoveAll "/tmp/ukify42" (Some e);
              EvLogPrintf "failed to remove scratch dir: %v" e].
Proof.
  cbv zeta. split; [vm_compute; reflexivity |].
  assert (Hin : In (EvMkdirTemp "" "ukify" (inl "/tmp/ukify42"))
                  (new_events Sample.world0
                     (snd (snd (Build SampleRuns.env_keep_scratch
                                  (SampleRuns.builder_signed_boot, Sample.world0)))))).
  { vm_compute. right. left. reflexivity. }
  destruct (Build_removes_scratch SampleRuns.env_keep_scratch
              SampleRuns.builder_signed_boot Sample.world0 "/tmp/ukify42" Hin)
    as (b1 & w1 & pre & r & _ & _ & _ & _ & _ & HN & Hgone).
  destruct r as [e |].
  - exists pre, e. exact HN.
  - exfalso. apply (Hgone eq_refl). vm_compute. reflexivity.
Defined.

(** ** Signing *)

(** C1 does not hold of the code.  When no boot-loader path is supplied,
    no run of [Build] ever calls [pesign.NewSigner]: the builder's
    [peSigner] field is left as it was before the call, and every signing
    call of the run goes through that old value, which is nil on a builder
    that has not signed a boot loader before. *)
Theorem Build_without_sdboot_makes_no_signer env b w :
  SdBootPath b = "" ->
  let out := Build env (b, w) in
  peSigner (fst (snd out)) = peSigner b /\
  Forall (signs_only_through (peSigner b)) (new_events w (snd (snd out))).
Proof.
  intros Hsd out. subst out.
  destruct (Build_inv env b w) as
    [(b1 & w1 & HP & Hfail & Hout) | (b1 & w1 & b2 & w2 & w3 & HP & HBody & HC & Hout)];
    pose proof (Build_prelude_spec env _ _ _ _ _ HP) as
      (_ & HS & _ & HSd & _ & _ & _ & _ & (evs & HT & HF & _) & _);
    rewrite Hout; cbn [fst snd].
  - split; [exact HS |]. rewrite (new_events_app _ _ _ HT).
    constructor; [exact I |].
    eapply Forall_impl; [exact HF |]. intros ev Hev; destruct ev; cbn in *; tauto.
  - pose proof (Build_body_strict env (b1, w1)) as F. cbn [fst] in F.
    rewrite HSd in F. specialize (F Hsd). rewrite HBody in F.
    destruct F as [_ FS _ (evs2 & HT2 & HF2) _]. cbn [fst snd] in *.
    specialize (FS eq_refl).
    pose proof (deferred_cleanup_spec env b2 w2) as (_ & _ & _ & CT & _).
    cbv zeta in CT. rewrite HC in CT. cbn [snd] in CT.
    split; [congruence |].
    erewrite new_events_app
      by (rewrite CT, HT2, HT; repeat rewrite <- app_assoc; reflexivity).
    apply Forall_app. split; [| apply Forall_app; split].
    + constructor; [exact I |].
      eapply Forall_impl; [exact HF |]. intros ev Hev; destruct ev; cbn in *; tauto.
    + eapply Forall_impl; [exact HF2 |].
      intros ev Hev; destruct ev; cbn in *; try tauto; try discriminate.
      rewrite <- HS. auto.
    + destruct (os_RemoveAll env (scratchDir b2) w2); repeat constructor.
Qed.

Lemma Build_without_sdboot_makes_no_signer_witness :
  let run := Build SampleRuns.env_no_version (SampleRuns.builder_no_boot, Sample.world0) in
  peSigner (fst (snd run)) = None /\
  Forall (signs_only_through None) (new_events Sample.world0 (snd (snd run))) /\
  In (EvSign None "/tmp/ukify42/uki.unsigned.efi" "uki.signed.efi")
    (new_events Sample.world0 (snd (snd run))) /\
  fst run = Panic.
Proof.
  cbv zeta.
  destruct (Build_without_sdboot_makes_no_signer SampleRuns.env_no_version
              SampleRuns.builder_no_boot Sample.world0 eq_refl) as [H1 H2].
  split; [exact H1 |]. split; [exact H2 |].
  split; [| vm_compute; reflexivity].
  vm_compute.
  repeat match goal with |- _ \/ _ => first [left; reflexivity | right] end.
Defined.

(** ** The measured mapping *)

Section ToMap.

Context {A K V : Type} `{Countable K}.
Variable f : A -> K * V.

Lemma fold_insert_is_Some (l : list A) (m0 : gmap K V) k :
  is_Some (fold_left (fun m a => <[fst (f a) := snd (f a)]> m) l m0 !! k) <->
  is_Some (m0 !! k) \/ exists a, In a l /\ fst (f a) = k.
Proof.
  revert m0. induction l as [| a l IH]; intros m0; cbn [fold_left].
  - split; [auto | intros [? | (a & [] & _)]; auto].
  - rewrite IH, lookup_insert_is_Some'. split.
    + intros [[E | Hm] | (a' & Hin & E)]; eauto.
      * right. exists a. split; [left; reflexivity | exact E].
      * right. exists a'. split; [right; exact Hin | exact E].
    + intros [Hm | (a' & [-> | Hin] & E)]; eauto.
Qed.

Lemma fold_insert_Some (l : list A) (m0 : gmap K V) k v :
  fold_left (fun m a => <[fst (f a) := snd (f a)]> m) l m0 !! k = Some v ->
  m0 !! k = Some v \/ exists a, In a l /\ f a = (k, v).
Proof.
  revert m0. induction l as [| a l IH]; intros m0; cbn [fold_left].
  - auto.
  - intros Hl. apply IH in Hl. destruct Hl as [Hl | (a' & Hin & E)].
    + apply lookup_insert_Some in Hl. destruct Hl as [[E1 E2] | [_ Hm]]; auto.
      right. exists a. split; [left; reflexivity |].
      destruct (f a); cbn in *; congruence.
    + right. exists a'. split; [right; exact Hin | exact E].
Qed.

Lemma xslices_ToMap_is_Some (l : list A) k :
  is_Some (xslices_ToMap l f !! k) <-> exists a, In a l /\ fst (f a) = k.
Proof.
  unfold xslices_ToMap. rewrite fold_insert_is_Some, lookup_empty. split.
  - intros [[x Hx] | Hex]; [discriminate | exact Hex].
  - auto.
Qed.

Lemma xslices_ToMap_Some (l : list A) k v :
  xslices_ToMap l f !! k = Some v -> exists a, In a l /\ f a = (k, v).
Proof.
  unfold xslices_ToMap. intros Hl. apply fold_insert_Some in Hl.
  destruct Hl as [Hl | Hl]; [rewrite lookup_empty in Hl; discriminate | exact Hl].
Qed.

End ToMap.

Lemma sectionsData_is_Some secs n :
  is_Some (sectionsData secs !! n) <->
  exists s, In s secs /\ Measure s = true /\ Name s = n.
Proof.
  unfold sectionsData. rewrite xslices_ToMap_is_Some. unfold xslices_Filter. split.
  - intros (s & Hin & E). apply filter_In in Hin. exists s. tauto.
  - intros (s & Hin & Hm & E). exists s. split; [| exact E].
    apply filter_In. tauto.
Qed.

Lemma sectionsData_Some secs n p :
  sectionsData secs !! n = Some p ->
  exists s, In s secs /\ Measure s = true /\ Name s = n /\ Path s = p.
Proof.
  unfold sectionsData. intros Hl. apply xslices_ToMap_Some in Hl.
  destruct Hl as (s & Hin & E). unfold xslices_Filter in Hin.
  apply filter_In in Hin. exists s. injection E as E1 E2. tauto.
Qed.

Lemma sectionsData_no_PCRSig secs :
  Forall pcrsig_unmeasured secs -> sectionsData secs !! constants.PCRSig = None.
Proof.
  intros Hinv. apply eq_None_not_Some. rewrite sectionsData_is_Some.
  intros (s & Hin & Hm & Hn). rewrite Forall_forall in Hinv.
  apply list_elem_of_In in Hin. specialize (Hinv s Hin Hn). congruence.
Qed.

Lemma sectionsData_app_unmeasured secs s :
  Measure s = false -> sectionsData (secs ++ [s]) = sectionsData secs.
Proof.
  intros Hm. unfold sectionsData, xslices_Filter.
  rewrite List.filter_app. cbn [List.filter]. rewrite Hm, app_nil_r. reflexivity.
Qed.

Lemma allowed_unmeasuring strict b ev m :
  allowed strict false b ev -> measured_by ev = Some m -> False.
Proof. destruct ev; cbn; intros; discriminate. Qed.

Lemma measures_ok_of_frame strict appending s s' :
  frame strict false appending s s' -> measures_ok s s'.
Proof.
  intros [_ _ _ (evs & HT & HF) _]. exists evs. split; [exact HT |].
  eapply Forall_impl; [exact HF |]. intros ev Hev m Hm.
  exfalso. eapply allowed_unmeasuring; eauto.
Qed.

Lemma measures_ok_then_frame strict s s1 s2 :
  measures_ok s s1 -> frame strict false false s1 s2 -> measures_ok s s2.
Proof.
  intros (evs & HT & HF) F. pose proof (frame_sections_kept _ _ _ _ F) as HS.
  destruct F as [_ _ _ (evs2 & HT2 & HF2) _].
  exists (evs ++ evs2). split; [rewrite HT2, HT, app_assoc; reflexivity |].
  apply Forall_app. split.
  - rewrite HS. exact HF.
  - eapply Forall_impl; [exact HF2 |]. intros ev Hev m Hm.
    exfalso. eapply allowed_unmeasuring; eauto.
Qed.

Lemma frame_then_measures_ok strict appending s s1 s2 :
  frame strict false appending s s1 -> measures_ok s1 s2 -> measures_ok s s2.
Proof.
  intros [_ _ _ (evs & HT & HF) _] (evs2 & HT2 & HF2).
  exists (evs ++ evs2). split; [rewrite HT2, HT, app_assoc; reflexivity |].
  apply Forall_app. split; [| exact HF2].
  eapply Forall_impl; [exact HF |]. intros ev Hev m Hm.
  exfalso. eapply allowed_unmeasuring; eauto.
Qed.

Lemma bind_cases {A B} (m : M A) (k : A -> M B) s :
  (exists a s1, m s = (Ok a, s1) /\ bind m k s = k a s1) \/
  snd (bind m k s) = snd (m s) /\ (forall a, fst (m s) <> Ok a).
Proof.
  unfold bind. destruct (m s) as [[a | e |] s1]; cbn [fst snd].
  - left. eauto.
  - right. split; [reflexivity | discriminate].
  - right. split; [reflexivity | discriminate].
Qed.

Lemma wrapErr_snd {A} prefix (m : M A) s : snd (wrapErr prefix m s) = snd (m s).
Proof. unfold wrapErr. destruct (m s) as [[a | e |] s1]; reflexivity. Qed.

Section Measuring.

Variable env : Env.

Lemma generatePCRSig_measures s : measures_ok s (snd (generatePCRSig env s)).
Proof.
  destruct s as [b w].
  destruct (generatePCRSig env (b, w)) as [r [b' w']] eqn:H.
  unfold generatePCRSig in H. run.
  all: unfold measures_ok; cbn [fst snd trace emit set_files sections set_sections].
  all: first [ eexists; split; [repeat rewrite <- app_assoc; reflexivity |]
             | exists []; split; [rewrite app_nil_r; reflexivity |] ].
  all: repeat constructor; cbn [measured_by]; intros m Hm; try discriminate.
  all: injection Hm as <-; rewrite ?sectionsData_app_unmeasured by reflexivity; reflexivity.
Qed.

Lemma run_generators_measures s :
  measures_ok s (snd (run_generators (generators env) s)).
Proof.
  rewrite generators_split, run_generators_app.
  pose proof (run_generators_frame true false true _
                (payload_generators_frame env) s) as F.
  destruct (bind_cases (run_generators (payload_generators env))
              (fun _ => run_generators [generatePCRSig env]) s)
    as [(a & s1 & E & ->) | [-> _]].
  - rewrite E in F. cbn [snd] in F. eapply frame_then_measures_ok; [exact F |].
    cbn [run_generators].
    destruct (bind_cases (wrapErr "error generating sections" (generatePCRSig env))
                (fun _ => ret tt) s1) as [(a' & s2 & E2 & ->) | [-> _]].
    + unfold ret. cbn [snd].
      replace s2 with (snd (generatePCRSig env s1)).
      * apply generatePCRSig_measures.
      * rewrite <- wrapErr_snd with (prefix := "error generating sections").
        rewrite E2. reflexivity.
    + rewrite wrapErr_snd. apply generatePCRSig_measures.
  - eapply measures_ok_of_frame. exact F.
Qed.

Lemma Build_body_measures s : measures_ok s (snd (Build_body env s)).
Proof.
  unfold Build_body.
  pose proof (signSdBoot_frame env false false s) as F1.
  destruct (bind_cases (signSdBoot env)
              (fun _ => logger_log LevelInfo "Generating UKI sections" ;;;
                        run_generators (generators env) ;;; assembleAndSign env) s)
    as [([] & s1 & E1 & ->) | [-> _]];
    [| eapply measures_ok_of_frame; exact F1].
  rewrite E1 in F1. cbn [snd] in F1.
  eapply frame_then_measures_ok; [exact F1 |].
  pose proof (stable_logger_log false false false LevelInfo "Generating UKI sections" s1)
    as F2.
  destruct (bind_cases (logger_log LevelInfo "Generating UKI sections")
              (fun _ => run_generators (generators env) ;;; assembleAndSign env) s1)
    as [([] & s2 & E2 & ->) | [-> _]];
    [| eapply measures_ok_of_frame; exact F2].
  rewrite E2 in F2. cbn [snd] in F2.
  eapply frame_then_measures_ok; [exact F2 |].
  pose proof (run_generators_measures s2) as M3.
  destruct (bind_cases (run_generators (generators env))
              (fun _ => assembleAndSign env) s2)
    as [([] & s3 & E3 & ->) | [-> _]]; [| exact M3].
  rewrite E3 in M3. cbn [snd] in M3.
  eapply measures_ok_then_frame; [exact M3 |].
  apply (assembleAndSign_frame env true false false).
Qed.

Lemma Build_measures b w : measures_ok (b, w) (snd (Build env (b, w))).
Proof.
  destruct (Build_inv env b w) as
    [(b1 & w1 & HP & Hfail & Hout) | (b1 & w1 & b2 & w2 & w3 & HP & HBody & HC & Hout)];
    pose proof (Build_prelude_spec env _ _ _ _ _ HP) as
      (HS & _ & _ & _ & _ & _ & _ & _ & (evs & HT & HF & _) & _);
    rewrite Hout; unfold measures_ok; cbn [fst snd].
  - eexists. split; [exact HT |]. constructor; [discriminate |].
    eapply Forall_impl; [exact HF |].
    intros ev Hev m Hm; destruct ev; cbn in *; try contradiction; discriminate.
  - pose proof (Build_body_measures (b1, w1)) as (evs2 & HT2 & HF2).
    rewrite HBody in HT2, HF2. cbn [fst snd] in HT2, HF2.
    pose proof (deferred_cleanup_spec env b2 w2) as (_ & _ & _ & CT & _).
    cbv zeta in CT. rewrite HC in CT. cbn [snd] in CT.
    eexists. split.
    + rewrite CT, HT2, HT. repeat rewrite <- app_assoc. reflexivity.
    + apply Forall_app. split; [| apply Forall_app; split].
      * constructor; [discriminate |].
        eapply Forall_impl; [exact HF |].
        intros ev Hev m Hm; destruct ev; cbn in *; try contradiction; discriminate.
      * exact HF2.
      * destruct (os_RemoveAll env (scratchDir b2) w2); repeat constructor; discriminate.
Qed.

End Measuring.

(** ** What any run appends *)

Section Appending.

Variable env : Env.

Lemma generateOSRel_cases b w :
  let out := generateOSRel env (b, w) in
  (fst (snd out) = b /\ forall a, fst out <> Ok a) \/
  (exists p, fst out = Ok tt /\
             fst (snd out) =
               set_sections b (sections b ++ [mkSection constants.OSRel p true true])).
Proof.
  cbv zeta. destruct (generateOSRel env (b, w)) as [r [b' w']] eqn:H.
  unfold generateOSRel in H. run; cbn [fst snd];
    first [ left; split; [reflexivity | discriminate]
          | right; eexists; split; reflexivity ].
Qed.

Lemma wrapErr_not_Ok {A} prefix (m : M A) s :
  (forall a, fst (wrapErr prefix m s) <> Ok a) -> forall a, fst (m s) <> Ok a.
Proof.
  unfold wrapErr. destruct (m s) as [[a | e |] s1]; cbn; intros H a'; try discriminate.
  exfalso. apply (H a). reflexivity.
Qed.

Lemma run_generators_appends s :
  exists l,
    sections (fst (snd (run_generators (generators env) s))) = sections (fst s) ++ l /\
    head_is_OSRel l /\ Forall pcrsig_unmeasured l.
Proof.
  pose proof (generators_frame env) as HG. unfold generators in *.
  apply Forall_cons in HG. destruct HG as [_ HG].
  cbn [run_generators].
  match goal with
  | |- context [bind ?m ?k s] =>
      destruct (bind_cases m k s) as [([] & s1 & E1 & ->) | [-> Hno]]
  end.
  - apply wrapErr_Ok in E1. destruct s as [b w], s1 as [b1 w1].
    apply generateOSRel_Ok in E1. destruct E1 as [p ->].
    match goal with
    | |- context [snd (?m (_, w1))] =>
        assert (F : stable (frame true true true) m)
          by (apply (run_generators_frame true true true _ HG));
        specialize (F (set_sections b (sections b ++ [mkSection constants.OSRel p true true]), w1))
    end.
    destruct F as [_ _ (l & E & Hl & _) _ _]. cbn [fst snd sections set_sections] in *.
    exists (mkSection constants.OSRel p true true :: l).
    rewrite E, <- app_assoc. repeat split; auto.
    constructor; [| exact Hl]. intros Hn. discriminate Hn.
  - rewrite wrapErr_snd. pose proof (wrapErr_not_Ok _ _ _ Hno) as Hno'.
    destruct s as [b w].
    destruct (generateOSRel_cases b w) as [[E _] | (p & E & _)];
      cbv zeta in E.
    + exists []. rewrite E, app_nil_r. repeat split; cbn; auto.
    + exfalso. apply (Hno' tt). exact E.
Qed.

Lemma Build_body_appends s :
  exists l,
    sections (fst (snd (Build_body env s))) = sections (fst s) ++ l /\
    head_is_OSRel l /\ Forall pcrsig_unmeasured l.
Proof.
  unfold Build_body.
  assert (Hkept : forall s' : State, sections (fst s') = sections (fst s) ->
            exists l, sections (fst s') = sections (fst s) ++ l /\
                      head_is_OSRel l /\ Forall pcrsig_unmeasured l).
  { intros s' E. exists []. rewrite app_nil_r. repeat split; cbn; auto. }
  pose proof (signSdBoot_frame env false false s) as F1.
  destruct (bind_cases (signSdBoot env)
              (fun _ => logger_log LevelInfo "Generating UKI sections" ;;;
                        run_generators (generators env) ;;; assembleAndSign env) s)
    as [([] & s1 & E1 & ->) | [-> _]];
    [| apply Hkept; eapply frame_sections_kept; exact F1].
  rewrite E1 in F1. cbn [snd] in F1. apply frame_sections_kept in F1.
  pose proof (stable_logger_log false false false LevelInfo "Generating UKI sections" s1)
    as F2.
  destruct (bind_cases (logger_log LevelInfo "Generating UKI sections")
              (fun _ => run_generators (generators env) ;;; assembleAndSign env) s1)
    as [([] & s2 & E2 & ->) | [-> _]];
    [| apply Hkept; apply frame_sections_kept in F2; congruence].
  rewrite E2 in F2. cbn [snd] in F2. apply frame_sections_kept in F2.
  destruct (run_generators_appends s2) as (l & E & Hh & Hl).
  destruct (bind_cases (run_generators (generators env))
              (fun _ => assembleAndSign env) s2)
    as [([] & s3 & E3 & ->) | [-> _]].
  - rewrite E3 in E. cbn [fst snd] in E.
    pose proof (assembleAndSign_frame env true false false s3) as F4.
    apply frame_sections_kept in F4.
    exists l. repeat split; auto. congruence.
  - exists l. repeat split; auto. congruence.
Qed.

Lemma Build_appends b w :
  exists l,
    sections (fst (snd (Build env (b, w)))) = sections b ++ l /\
    head_is_OSRel l /\ Forall pcrsig_unmeasured l.
Proof.
  destruct (Build_inv env b w) as
    [(b1 & w1 & HP & Hfail & Hout) | (b1 & w1 & b2 & w2 & w3 & HP & HBody & HC & Hout)];
    pose proof (Build_prelude_spec env _ _ _ _ _ HP) as (HS & _);
    rewrite Hout; cbn [fst snd].
  - exists []. rewrite app_nil_r. repeat split; cbn; auto.
  - destruct (Build_body_appends (b1, w1)) as (l & E & Hh & Hl).
    rewrite HBody in E. cbn [fst snd] in E.
    exists l. repeat split; auto. congruence.
Qed.

Lemma head_is_OSRel_app l1 l2 :
  head_is_OSRel l1 -> head_is_OSRel l2 -> head_is_OSRel (l1 ++ l2).
Proof. destruct l1; cbn; auto. Qed.

Lemma reachable_invariant b :
  reachable env b -> Forall pcrsig_unmeasured (sections b) /\ head_is_OSRel (sections b).
Proof.
  induction 1 as [b (-> & _) | b w _ [IH1 IH2] | b b' _ [IH1 IH2] (-> & _)].
  - split; [constructor | exact I].
  - destruct (Build_appends b w) as (l & -> & Hh & Hl). split.
    + apply Forall_app. split; assumption.
    + apply head_is_OSRel_app; assumption.
  - split; assumption.
Qed.

End Appending.

(** C4. On every builder a client can hold, whatever mapping a run of
    [Build] hands to the measurement engine (to [GenerateSignedPCR], and
    to the diagnostic print) is the mapping of the final section list:
    its names are exactly the names of the sections flagged Measure, each
    with the path of such a section, and PCRSig is not among them.  Every
    section the run appends under the name PCRSig has Measure = false, and
    so has every PCRSig section of the final list. *)
Theorem Build_measures_the_measured_sections env b w :
  reachable env b ->
  let out := Build env (b, w) in
  let final := sections (fst (snd out)) in
  Forall pcrsig_unmeasured final /\
  (exists appended,
      final = sections b ++ appended /\ Forall pcrsig_unmeasured appended) /\
  forall ev m,
    In ev (new_events w (snd (snd out))) -> measured_by ev = Some m ->
    m = sectionsData final /\
    m !! constants.PCRSig = None /\
    (forall n, is_Some (m !! n) <->
               exists s, In s final /\ Measure s = true /\ Name s = n) /\
    (forall n p, m !! n = Some p ->
                 exists s, In s final /\ Measure s = true /\ Name s = n /\ Path s = p).
Proof.
  intros HR out final. subst out final.
  apply reachable_invariant in HR. destruct HR as [Hinv _].
  destruct (Build_appends env b w) as (l & E & _ & Hl).
  assert (Hfinal : Forall pcrsig_unmeasured (sections (fst (snd (Build env (b, w)))))).
  { rewrite E. apply Forall_app. split; assumption. }
  split; [exact Hfinal |]. split; [exists l; split; assumption |].
  intros ev m Hin Hm.
  destruct (Build_measures env b w) as (evs & HT & HF). cbn [fst snd] in HT.
  rewrite (new_events_app _ _ _ HT) in Hin.
  rewrite Forall_forall in HF. apply list_elem_of_In in Hin.
  specialize (HF ev Hin m Hm). subst m.
  split; [reflexivity |]. split; [apply sectionsData_no_PCRSig; exact Hfinal |].
  split; [intros n; apply sectionsData_is_Some | intros n p; apply sectionsData_Some].
Qed.

Lemma Build_measures_the_measured_sections_witness :
  exists m,
    In (EvGenerateSignedPCR m (Some (RSAKeyRef 0)) 11)
       (new_events (snd (snd SampleRuns.first_run)) (snd (snd SampleRuns.second_run))) /\
    m = sectionsData (sections (fst (snd SampleRuns.second_run))) /\
    m !! constants.PCRSig = None /\
    m !! constants.Linux = Some "vmlinuz".
Proof.
  unfold SampleRuns.second_run.
  assert (HR : reachable SampleRuns.env_no_version (fst (snd SampleRuns.first_run))).
  { exact (reach_Build SampleRuns.env_no_version SampleRuns.builder_signed_boot
             Sample.world0
             (reach_fresh SampleRuns.env_no_version SampleRuns.builder_signed_boot
                (conj eq_refl (conj eq_refl (conj eq_refl eq_refl))))). }
  pose proof (Build_measures_the_measured_sections SampleRuns.env_no_version
                (fst (snd SampleRuns.first_run)) (snd (snd SampleRuns.first_run)) HR)
    as H.
  cbv zeta in H. destruct H as (_ & _ & H).
  eexists. split; [| split; [reflexivity |]].
  - apply (nth_error_In _ 25). vm_compute. reflexivity.
  - split; [| vm_compute; reflexivity].
    refine (proj1 (proj2 (H (EvGenerateSignedPCR _ (Some (RSAKeyRef 0)) 11) _ _ eq_refl))).
    apply (nth_error_In _ 25). vm_compute. reflexivity.
Defined.

(** ** Reuse of a builder *)

Lemma occurrences_app n l1 l2 :
  occurrences n (l1 ++ l2) = occurrences n l1 + occurrences n l2.
Proof. unfold occurrences. rewrite map_app. apply count_occ_app. Qed.

Lemma occurrences_In s l : In s l -> 1 <= occurrences (Name s) l.
Proof.
  intros Hin. unfold occurrences.
  apply (count_occ_In constants.SectionName_eq_dec). apply in_map. exact Hin.
Qed.

Lemma occurrences_layout n gen uname :
  map signature gen = build_layout uname -> n <> constants.Uname ->
  1 <= occurrences n gen.
Proof.
  intros L Hn. unfold occurrences.
  assert (E : map Name gen = map (fun x => fst (fst x)) (build_layout uname)).
  { rewrite <- L, map_map. reflexivity. }
  rewrite E. destruct uname, n; cbn; try lia; contradiction.
Qed.

(** C9. [Build] never empties the builder's section list: after any
    call the list is the old one followed by what the call appended.  So
    on a builder a client can hold whose list is not empty, a successful
    [Build] yields a list in which names recur: the old sections are all
    still there, every old section other than uname has its name at least
    twice in the list (OSRelease among them), and the names of the list
    are not distinct. *)
Theorem Build_keeps_earlier_sections env b w :
  reachable env b ->
  sections b <> [] ->
  let out := Build env (b, w) in
  let final := sections (fst (snd out)) in
  (exists appended, final = sections b ++ appended) /\
  (fst out = Ok tt ->
   (forall s, In s (sections b) -> Name s <> constants.Uname ->
              2 <= occurrences (Name s) final) /\
   2 <= occurrences constants.OSRel final /\
   ~ NoDup (map Name final)).
Proof.
  intros HR Hne out final. subst out final.
  apply reachable_invariant in HR. destruct HR as [_ Hhead].
  destruct (Build_appends env b w) as (l & E & _ & _).
  split; [exists l; exact E |].
  intros Hok.
  destruct (Build env (b, w)) as [r [b' w']] eqn:HB. cbn [fst snd] in *. subst r.
  apply Build_Ok in HB. destruct HB as (gen & uname & Eg & L & _).
  assert (Hall : forall s, In s (sections b) -> Name s <> constants.Uname ->
                           2 <= occurrences (Name s) (sections b')).
  { intros s Hin Hn. rewrite Eg, occurrences_app.
    pose proof (occurrences_In s _ Hin).
    pose proof (occurrences_layout (Name s) gen uname L Hn). lia. }
  assert (Hos : 2 <= occurrences constants.OSRel (sections b')).
  { destruct (sections b) as [| s0 rest] eqn:Es; [contradiction |].
    cbn in Hhead. rewrite <- Hhead. apply Hall; [left; reflexivity |].
    rewrite Hhead. discriminate. }
  repeat split; auto.
  intros Hnd. apply NoDup_ListNoDup in Hnd.
  pose proof (proj1 (NoDup_count_occ constants.SectionName_eq_dec _) Hnd
                constants.OSRel) as Hle.
  unfold occurrences in Hos. lia.
Qed.

Lemma Build_keeps_earlier_sections_witness :
  fst SampleRuns.second_run = Ok tt /\
  length (sections (fst (snd SampleRuns.second_run))) = 16 /\
  2 <= occurrences constants.OSRel (sections (fst (snd SampleRuns.second_run))) /\
  ~ NoDup (map Name (sections (fst (snd SampleRuns.second_run)))).
Proof.
  unfold SampleRuns.second_run.
  assert (HR : reachable SampleRuns.env_no_version (fst (snd SampleRuns.first_run))).
  { exact (reach_Build SampleRuns.env_no_version SampleRuns.builder_signed_boot
             Sample.world0
             (reach_fresh SampleRuns.env_no_version SampleRuns.builder_signed_boot
                (conj eq_refl (conj eq_refl (conj eq_refl eq_refl))))). }
  assert (Hne : sections (fst (snd SampleRuns.first_run)) <> []).
  { vm_compute. discriminate. }
  pose proof (Build_keeps_earlier_sections SampleRuns.env_no_version
                (fst (snd SampleRuns.first_run)) (snd (snd SampleRuns.first_run)) HR Hne)
    as H.
  cbv zeta in H. destruct H as (_ & H).
  assert (Hok : fst (Build SampleRuns.env_no_version
                       (fst (snd SampleRuns.first_run), snd (snd SampleRuns.first_run))) =
                Ok tt) by (vm_compute; reflexivity).
  destruct (H Hok) as (_ & H2 & H3).
  split; [exact Hok |]. split; [vm_compute; reflexivity |]. split; [exact H2 | exact H3].
Defined.

(** * Further properties *)

(** ** How errors travel *)

Lemma bind_Err {A B} (m : M A) (k : A -> M B) s e s' :
  bind m k s = (Err e, s') ->
  m s = (Err e, s') \/ exists a s1, m s = (Ok a, s1) /\ k a s1 = (Err e, s').
Proof.
  unfold bind. destruct (m s) as [[a | e0 |] s1]; intros H.
  - right. eauto.
  - left. injection H as <- <-. reflexivity.
  - discriminate.
Qed.

Lemma wrapErr_Err {A} prefix (m : M A) s e s' :
  wrapErr prefix m s = (Err e, s') ->
  exists cause, e = fmt_Errorf prefix cause /\ m s = (Err cause, s').
Proof.
  unfold wrapErr. destruct (m s) as [[a | e0 |] s1]; intros H; try discriminate.
  injection H as <- <-. eauto.
Qed.

Lemma logger_log_Err l msg s e s' : logger_log l msg s = (Err e, s') -> False.
Proof. unfold logger_log. destruct (Logger (fst s)); discriminate. Qed.

Lemma run_generators_Err gs s e s' :
  run_generators gs s = (Err e, s') ->
  exists cause, e = fmt_Errorf "error generating sections" cause.
Proof.
  revert s. induction gs as [| g gs IH]; intros s; cbn [run_generators].
  - discriminate.
  - intros H. apply bind_Err in H. destruct H as [H | (a & s1 & _ & H)].
    + apply wrapErr_Err in H. destruct H as (cause & -> & _). eauto.
    + eapply IH. exact H.
Qed.

(** X1. The loop over the generators stops at the first generator that
    fails: when the generators before it return nil and it returns an
    error, the loop returns that error wrapped once as "error generating
    sections", in the state the failing generator left, and runs none of
    the generators after it.  Generators that return nil are run through
    in order. *)
Theorem run_generators_stops_at_first_error before g after s s1 e s2 :
  run_generators before s = (Ok tt, s1) ->
  g s1 = (Err e, s2) ->
  run_generators (before ++ g :: after) s =
    (Err (fmt_Errorf "error generating sections" e), s2) /\
  (forall rest, run_generators (before ++ rest) s = run_generators rest s1).
Proof.
  intros Hb Hg.
  assert (Happ : forall rest, run_generators (before ++ rest) s = run_generators rest s1).
  { intros rest. rewrite run_generators_app. unfold bind. rewrite Hb. reflexivity. }
  split; [| exact Happ].
  rewrite Happ. cbn [run_generators]. unfold bind, wrapErr. rewrite Hg. reflexivity.
Qed.

Lemma run_generators_stops_at_first_error_witness :
  run_generators (generators MoreRuns.env_no_sbat)
    (SampleRuns.builder_splash, Sample.world0) =
  (Err (fmt_Errorf "error generating sections"
          (collaborator_error "no .sbat section in stub")),
   snd (generateSBAT MoreRuns.env_no_sbat
          (snd (run_generators
                  [generateOSRel MoreRuns.env_no_sbat; generateCmdline MoreRuns.env_no_sbat;
                   generateInitrd; generateSplash MoreRuns.env_no_sbat;
                   generateUname MoreRuns.env_no_sbat]
                  (SampleRuns.builder_splash, Sample.world0))))).
Proof.
  refine (proj1 (run_generators_stops_at_first_error
                   [generateOSRel MoreRuns.env_no_sbat; generateCmdline MoreRuns.env_no_sbat;
                    generateInitrd; generateSplash MoreRuns.env_no_sbat;
                    generateUname MoreRuns.env_no_sbat]
                   (generateSBAT MoreRuns.env_no_sbat)
                   [generatePCRPublicKey MoreRuns.env_no_sbat; generateKernel;
                    generatePCRSig MoreRuns.env_no_sbat]
                   (SampleRuns.builder_splash, Sample.world0) _
                   (collaborator_error "no .sbat section in stub") _ _ _)).
  - vm_compute. reflexivity.
  - vm_compute. reflexivity.
Defined.

Section ErrorSources.

Variable env : Env.

Lemma signSdBoot_Err s e s' :
  signSdBoot env s = (Err e, s') -> stage_error e.
Proof.
  destruct s as [b w], s' as [b' w'].
  unfold signSdBoot, slog_log, newPESigner, Sign. intros H.
  run; unfold stage_error; eexists;
    first [ left; reflexivity | right; left; reflexivity ].
Qed.

Lemma assembleAndSign_Err s e s' :
  assembleAndSign env s = (Err e, s') ->
  stage_error e \/ final_sign_error env (fst s) e.
Proof.
  destruct s as [b w], s' as [b' w'].
  unfold assembleAndSign, assemble, Sign. intros H.
  run; cbn [fst];
    first [ left; unfold stage_error; eexists; do 3 right; reflexivity
          | right; unfold final_sign_error; do 4 eexists; eassumption ].
Qed.

Lemma Build_prelude_Err b w e s' :
  Build_prelude env (b, w) = (Err e, s') -> setup_error env b e.
Proof.
  destruct s' as [b' w'].
  unfold Build_prelude, configureLogging, resolvePCRSigner, resolveSecureBootSigner,
    acquireScratch, slog_SetLogLoggerLevel. intros H. run; unfold setup_error;
    first [ left; reflexivity
          | right; left; reflexivity
          | right; right; left; eexists; eassumption
          | right; right; right; left; eexists; eassumption
          | right; right; right; right; eexists; eassumption ].
Qed.

Lemma frame_OutUKIPath strict measuring appending s s' :
  frame strict measuring appending s s' -> OutUKIPath (fst s') = OutUKIPath (fst s).
Proof. intros [c _ _ _ _]. apply (f_equal OutUKIPath) in c. exact c. Qed.

End ErrorSources.

Section Settings.

Variable env : Env.

Lemma frame_settings strict measuring appending s s' :
  frame strict measuring appending s s' ->
  same_settings (fst s) (fst s') /\
  PCRSigner (fst s') = PCRSigner (fst s) /\
  SecureBootSigner (fst s') = SecureBootSigner (fst s).
Proof.
  intros [c _ _ _ _]. unfold same_settings.
  repeat split;
    match goal with
    | |- ?f _ = ?f _ => exact (f_equal f c)
    end.
Qed.

Lemma Build_prelude_settings b w r b1 w1 :
  Build_prelude env (b, w) = (r, (b1, w1)) ->
  same_settings b b1 /\
  (forall k, PCRSigner b = Some k ->
             PCRSigner b1 = Some k /\
             Forall (fun ev => ~ is_NewPCRSigner ev) (new_events w w1)) /\
  (forall c, SecureBootSigner b = Some c ->
             SecureBootSigner b1 = Some c /\
             Forall (fun ev => ~ is_NewSecureBootSigner ev) (new_events w w1)) /\
  (r = Ok tt -> PCRSigner b1 <> None /\ SecureBootSigner b1 <> None).
Proof.
  unfold Build_prelude, configureLogging, resolvePCRSigner, resolveSecureBootSigner,
    acquireScratch, slog_SetLogLoggerLevel. intros H. run.
  all: split; [unfold same_settings; repeat split |].
  all: erewrite new_events_app
         by (cbn [trace emit set_slogLevel set_dirs]; repeat rewrite <- app_assoc;
             reflexivity).
  all: cbn [app].
  all: split;
    [intros k0 Hk;
     first [ discriminate
           | split; [congruence
                    | apply List.Forall_forall; intros ev Hev; cbn in Hev;
                      repeat destruct Hev as [<- | Hev]; cbn; tauto] ] |].
  all: split;
    [intros c0 Hc;
     first [ discriminate
           | split; [congruence
                    | apply List.Forall_forall; intros ev Hev; cbn in Hev;
                      repeat destruct Hev as [<- | Hev]; cbn; tauto] ] |].
  all: intros Hr; first [ discriminate | split; congruence ].
Qed.

Lemma same_settings_trans b1 b2 b3 :
  same_settings b1 b2 -> same_settings b2 b3 -> same_settings b1 b3.
Proof. unfold same_settings. intuition congruence. Qed.

End Settings.

(** X2. Every error [Build] returns has one of three origins.  It was
    made while the signers were resolved and the scratch directory
    acquired (one of the two configuration errors, or the error of loading
    a signer or of [os.MkdirTemp], returned as it is); or it names its
    stage, being wrapped as "error initializing signer", "error signing
    sd-boot", "error generating sections" or "error assembling UKI"; or it
    is the error of the last [Sign], into [OutUKIPath], returned
    unwrapped. *)
Theorem Build_error_sources env b w e :
  fst (Build env (b, w)) = Err e ->
  setup_error env b e \/ stage_error e \/ final_sign_error env b e.
Proof.
  intros He.
  destruct (Build_inv env b w) as
    [(b1 & w1 & HP & _ & _) | (b1 & w1 & b2 & w2 & w3 & HP & HBody & _ & _)];
    rewrite He in *.
  - left. eapply Build_prelude_Err. exact HP.
  - right. unfold Build_body in HBody.
    apply bind_Err in HBody. destruct HBody as [H | ([] & s1 & E1 & H)].
    { left. eapply signSdBoot_Err. exact H. }
    apply bind_Err in H. destruct H as [H | ([] & s2 & E2 & H)].
    { exfalso. eapply logger_log_Err. exact H. }
    apply bind_Err in H. destruct H as [H | ([] & s3 & E3 & H)].
    { left. apply run_generators_Err in H. destruct H as [cause ->].
      exists cause. auto. }
    apply assembleAndSign_Err in H. destruct H as [H | H]; [left; exact H | right].
    pose proof (signSdBoot_frame env true true (b1, w1)) as F1. rewrite E1 in F1.
    pose proof (stable_logger_log false true true LevelInfo "Generating UKI sections" s1)
      as F2. rewrite E2 in F2.
    pose proof (run_generators_frame true true true _ (generators_frame env) s2) as F3.
    rewrite E3 in F3. cbn [snd] in *.
    apply frame_OutUKIPath in F1, F2, F3. cbn [fst] in F1.
    apply Build_prelude_settings in HP.
    destruct HP as ((_ & _ & _ & _ & _ & _ & _ & _ & _ & _ & _ & _ & _ & HO & _) & _).
    unfold final_sign_error in *.
    replace (OutUKIPath b) with (OutUKIPath (fst s3)) by congruence. exact H.
Qed.

Lemma Build_error_sources_witness :
  fst (Build MoreRuns.env_no_sbat (SampleRuns.builder_signed_boot, Sample.world0)) =
    Err (fmt_Errorf "error generating sections"
           (collaborator_error "no .sbat section in stub")) /\
  fst (Build MoreRuns.env_sign_fails (SampleRuns.builder_no_boot, Sample.world0)) =
    Err (collaborator_error "sign: bad key") /\
  (setup_error MoreRuns.env_sign_fails SampleRuns.builder_no_boot
     (collaborator_error "sign: bad key") \/
   stage_error (collaborator_error "sign: bad key") \/
   final_sign_error MoreRuns.env_sign_fails SampleRuns.builder_no_boot
     (collaborator_error "sign: bad key")).
Proof.
  split; [vm_compute; reflexivity |].
  assert (H : fst (Build MoreRuns.env_sign_fails
                     (SampleRuns.builder_no_boot, Sample.world0)) =
              Err (collaborator_error "sign: bad key")) by (vm_compute; reflexivity).
  split; [exact H |].
  exact (Build_error_sources MoreRuns.env_sign_fails SampleRuns.builder_no_boot
           Sample.world0 _ H).
Defined.

(** X3. [Build] never changes the settings it was given (paths, command
    line, key and certificate paths, log level).  A PCR signer or a
    Secure-Boot signer that was supplied is used as it is: it is still the
    builder's signer after the call, and the call never loads one from
    the key material.  After a call that returns nil both signers are
    set. *)
Theorem Build_keeps_supplied_signers env b w :
  let out := Build env (b, w) in
  let b' := fst (snd out) in
  let evs := new_events w (snd (snd out)) in
  same_settings b b' /\
  (forall k, PCRSigner b = Some k ->
             PCRSigner b' = Some k /\ Forall (fun ev => ~ is_NewPCRSigner ev) evs) /\
  (forall c, SecureBootSigner b = Some c ->
             SecureBootSigner b' = Some c /\
             Forall (fun ev => ~ is_NewSecureBootSigner ev) evs) /\
  (fst out = Ok tt -> PCRSigner b' <> None /\ SecureBootSigner b' <> None).
Proof.
  cbv zeta.
  destruct (Build_inv env b w) as
    [(b1 & w1 & HP & Hfail & Hout) | (b1 & w1 & b2 & w2 & w3 & HP & HBody & HC & Hout)];
    pose proof (Build_prelude_settings env _ _ _ _ _ HP) as (HS & HK & HB & HOk);
    rewrite Hout; cbn [fst snd].
  - split; [exact HS |]. split; [exact HK |]. split; [exact HB |].
    intros Hok. contradiction.
  - pose proof (Build_body_frame env (b1, w1)) as F. rewrite HBody in F. cbn [snd] in F.
    pose proof (frame_settings _ _ _ _ _ F) as (FS & FK & FB). cbn [fst] in *.
    destruct F as [_ _ _ (evs2 & HT2 & HF2) _]. cbn [fst snd] in *.
    pose proof (deferred_cleanup_spec env b2 w2) as (_ & _ & _ & CT & _).
    cbv zeta in CT. rewrite HC in CT. cbn [snd] in CT.
    pose proof (Build_prelude_spec env _ _ _ _ _ HP) as
      (_ & _ & _ & _ & _ & _ & _ & _ & (evs & HT & _) & _).
    assert (HN : new_events w w3 =
                 new_events w w1 ++ evs2 ++
                 EvRemoveAll (scratchDir b2) (os_RemoveAll env (scratchDir b2) w2) ::
                 match os_RemoveAll env (scratchDir b2) w2 with
                 | None => []
                 | Some e => [EvLogPrintf "failed to remove scratch dir: %v" e]
                 end).
    { rewrite (new_events_app _ _ _ HT). apply new_events_app. rewrite CT, HT2, HT.
      repeat rewrite <- app_assoc. reflexivity. }
    rewrite HN.
    split; [eapply same_settings_trans; eassumption |].
    split; [| split].
    + intros k Hk. destruct (HK k Hk) as [E Hev]. split; [congruence |].
      apply Forall_app. split; [exact Hev |]. apply Forall_app. split.
      * eapply Forall_impl; [exact HF2 |]. intros ev Ha; destruct ev; cbn in *; tauto.
      * destruct (os_RemoveAll env (scratchDir b2) w2);
          repeat (constructor; [cbn; tauto |]); constructor.
    + intros c Hc. destruct (HB c Hc) as [E Hev]. split; [congruence |].
      apply Forall_app. split; [exact Hev |]. apply Forall_app. split.
      * eapply Forall_impl; [exact HF2 |]. intros ev Ha; destruct ev; cbn in *; tauto.
      * destruct (os_RemoveAll env (scratchDir b2) w2);
          repeat (constructor; [cbn; tauto |]); constructor.
    + intros Hok. destruct (HOk eq_refl) as [N1 N2]. split; congruence.
Qed.

(** ** The sections of a successful build, with their paths *)

Section SectionList.

Variable env : Env.

Lemma generateOSRel_Ok_path b w b' w' :
  generateOSRel env (b, w) = (Ok tt, (b', w')) ->
  b' = set_sections b (sections b ++
    [mkSection constants.OSRel
       (if String.eqb (OsRelease b) "" then filepath_Join env (scratchDir b) "os-release"
        else OsRelease b) true true]).
Proof. unfold generateOSRel. intros H. run; reflexivity. Qed.

Lemma run_generators_Ok_sections b w b' w' :
  run_generators (generators env) (b, w) = (Ok tt, (b', w')) ->
  exists uname,
    sections b' = sections b ++ expected_sections env b (scratchDir b) uname /\
    scratchDir b' = scratchDir b /\
    version_found env (KernelPath b) uname.
Proof.
  unfold generators. cbn [run_generators]. intros H.
  repeat (apply bind_Ok in H; destruct H as ([] & [? ?] & ? & H)).
  repeat match goal with
         | H : wrapErr _ _ _ = _ |- _ => apply wrapErr_Ok in H
         end.
  unfold ret in H. simplify_eq.
  repeat match goal with
         | H : generateOSRel _ _ = _ |- _ => apply generateOSRel_Ok_path in H
         | H : generateCmdline _ _ = _ |- _ => apply generateCmdline_Ok in H
         | H : generateInitrd _ = _ |- _ => apply generateInitrd_Ok in H
         | H : generateSplash _ _ = _ |- _ => apply generateSplash_Ok in H
         | H : generateSBAT _ _ = _ |- _ => apply generateSBAT_Ok in H
         | H : generatePCRPublicKey _ _ = _ |- _ => apply generatePCRPublicKey_Ok in H
         | H : generateKernel _ = _ |- _ => apply generateKernel_Ok in H
         | H : generatePCRSig _ _ = _ |- _ => apply generatePCRSig_Ok in H
         end.
  match goal with
  | H : generateUname _ _ = _ |- _ =>
      apply generateUname_Ok in H; destruct H as [[Hb Hu] | [Hb Hu]]
  end; subst;
    cbn [sections set_sections KernelPath scratchDir InitrdPath OsRelease] in *;
    repeat rewrite <- app_assoc.
  - exists false. split; [reflexivity | split; [reflexivity | eexists; exact Hu]].
  - exists true. split; [reflexivity | split; [reflexivity | eexists; exact Hu]].
Qed.

Lemma expected_sections_settings b b1 d uname :
  same_settings b b1 -> expected_sections env b1 d uname = expected_sections env b d uname.
Proof.
  intros (_ & _ & _ & _ & HK & HI & _ & HO & _). unfold expected_sections.
  rewrite HK, HI, HO. reflexivity.
Qed.

Lemma Build_Ok_section_list b w b' w' :
  Build env (b, w) = (Ok tt, (b', w')) ->
  exists uname,
    sections b' = sections b ++ expected_sections env b (scratchDir b') uname /\
    version_found env (KernelPath b) uname /\
    In (EvMkdirTemp "" "ukify" (inl (scratchDir b'))) (new_events w w').
Proof.
  intros HB.
  pose proof (Build_inv env b w) as HI. cbv zeta in HI. rewrite HB in HI.
  cbn [fst snd] in HI.
  destruct HI as
    [(b1 & w1 & _ & Hfail & _) | (b1 & w1 & b2 & w2 & w3 & HP & HBody & HC & Hout)];
    [contradiction |].
  injection Hout as <- <-.
  pose proof (Build_prelude_settings env _ _ _ _ _ HP) as (HS & _).
  pose proof (Build_prelude_spec env _ _ _ _ _ HP) as
    (HSec & _ & _ & _ & _ & _ & _ & _ & (evs & HT & _ & _ & Hmk) & _).
  specialize (Hmk eq_refl).
  pose proof (Build_body_frame env (b1, w1)) as F. rewrite HBody in F. cbn [snd] in F.
  pose proof (frame_scratchDir _ _ _ _ _ F) as FD. cbn [fst] in FD.
  destruct F as [_ _ _ (evs2 & HT2 & _) _]. cbn [fst snd] in HT2.
  pose proof (deferred_cleanup_spec env b' w2) as (_ & _ & _ & CT & _).
  cbv zeta in CT. rewrite HC in CT. cbn [snd] in CT.
  unfold Build_body in HBody.
  apply bind_Ok in HBody. destruct HBody as ([] & [b3 w3'] & E1 & H).
  apply bind_Ok in H. destruct H as ([] & [b4 w4] & E2 & H).
  apply bind_Ok in H. destruct H as ([] & [b5 w5] & E3 & H).
  pose proof (signSdBoot_frame env false false (b1, w1)) as F1. rewrite E1 in F1.
  pose proof (stable_logger_log false false false LevelInfo "Generating UKI sections"
                (b3, w3')) as F2. rewrite E2 in F2.
  pose proof (assembleAndSign_frame env false false false (b5, w5)) as F4.
  rewrite H in F4. cbn [snd] in *.
  pose proof (frame_settings _ _ _ _ _ F1) as (S1 & _).
  pose proof (frame_settings _ _ _ _ _ F2) as (S2 & _).
  pose proof (frame_scratchDir _ _ _ _ _ F1) as D1.
  pose proof (frame_scratchDir _ _ _ _ _ F2) as D2.
  pose proof (frame_scratchDir _ _ _ _ _ F4) as D4.
  apply frame_sections_kept in F1, F2, F4. cbn [fst snd] in *.
  apply run_generators_Ok_sections in E3. destruct E3 as (uname & E & D3 & V).
  exists uname. split; [| split].
  - rewrite F4, E, F2, F1, HSec.
    assert (S : same_settings b b4)
      by (eapply same_settings_trans; [| exact S2];
          eapply same_settings_trans; [exact HS | exact S1]).
    rewrite (expected_sections_settings b b4 _ _ S).
    replace (scratchDir b4) with (scratchDir b') by congruence. reflexivity.
  - destruct S1 as (_ & _ & _ & _ & K1 & _). destruct S2 as (_ & _ & _ & _ & K2 & _).
    destruct HS as (_ & _ & _ & _ & K0 & _).
    replace (KernelPath b) with (KernelPath b4) by congruence. exact V.
  - erewrite new_events_app
      by (rewrite CT, HT2, HT; repeat rewrite <- app_assoc; reflexivity).
    right. apply in_or_app. left. rewrite FD. exact Hmk.
Qed.

(** X4. A call of [Build] that returns nil appends exactly these
    sections, in this order: OSRelease, CmdLine, Initrd, Splash, Uname
    (only if the kernel version was found), SBAT, PCRPublicKey, Kernel,
    PCRSig.  Initrd and Kernel point at the configured initrd and kernel,
    OSRelease at the supplied os-release file if there is one; every other
    section is a file of the scratch directory this call created.  All are
    measured but PCRSig, all are appended to the image but SBAT. *)
Theorem Build_section_list b w b' w' :
  Build env (b, w) = (Ok tt, (b', w')) ->
  exists uname,
    sections b' = sections b ++ expected_sections env b (scratchDir b') uname /\
    version_found env (KernelPath b) uname /\
    In (EvMkdirTemp "" "ukify" (inl (scratchDir b'))) (new_events w w').
Proof. apply Build_Ok_section_list. Qed.

End SectionList.

Lemma Build_section_list_witness :
  exists uname,
    sections (fst (snd SampleRuns.first_run)) =
      sections SampleRuns.builder_signed_boot ++
      expected_sections SampleRuns.env_no_version SampleRuns.builder_signed_boot
        (scratchDir (fst (snd SampleRuns.first_run))) uname /\
    version_found SampleRuns.env_no_version (KernelPath SampleRuns.builder_signed_boot) uname /\
    In (EvMkdirTemp "" "ukify" (inl (scratchDir (fst (snd SampleRuns.first_run)))))
      (new_events Sample.world0 (snd (snd SampleRuns.first_run))).
Proof.
  apply (Build_section_list SampleRuns.env_no_version SampleRuns.builder_signed_boot
           Sample.world0 (fst (snd SampleRuns.first_run)) (snd (snd SampleRuns.first_run))).
  vm_compute. reflexivity.
Defined.

(** ** Assembly and the last signature *)

Section AssembleSign.

Variable env : Env.

Lemma assembleAndSign_Ok b w b' w' :
  assembleAndSign env (b, w) = (Ok tt, (b', w')) ->
  exists lg p w_a w_s,
    Logger b = Some lg /\
    b' = set_unsignedUKIPath b p /\
    assemble_UKI env (SdStubPath b) (sections b) w_a = inl p /\
    pesign_Sign env (peSigner b) p (OutUKIPath b) (Some lg) w_s = Ok tt /\
    trace w' = trace w ++
      [ EvLog lg LevelInfo "Generated UKI sections"; EvLog lg LevelInfo "Assembling UKI";
        EvAssemble (SdStubPath b) (sections b);
        EvLog lg LevelInfo "Assembled UKI"; EvLog lg LevelInfo "Signing UKI";
        EvSign (peSigner b) p (OutUKIPath b); EvLog lg LevelInfo "Signed UKI" ].
Proof.
  unfold assembleAndSign, assemble, Sign. intros H. run.
  do 4 eexists. split; [reflexivity |]. split; [reflexivity |].
  split; [eassumption |]. split.
  - match goal with H : pesign_Sign _ _ _ _ _ _ = Ok ?u |- _ => destruct u; exact H end.
  - repeat rewrite <- app_assoc. reflexivity.
Qed.

Lemma Build_Ok_inv b w b' w' :
  Build env (b, w) = (Ok tt, (b', w')) ->
  exists b1 w1 b5 w5 w6 pre,
    Build_prelude env (b, w) = (Ok tt, (b1, w1)) /\
    same_settings b b5 /\ scratchDir b5 = scratchDir b1 /\
    trace w5 = trace w ++ pre /\
    assembleAndSign env (b5, w5) = (Ok tt, (b', w6)) /\
    snd (deferred_cleanup env (b', w6)) = (b', w').
Proof.
  intros HB.
  pose proof (Build_inv env b w) as HI. cbv zeta in HI. rewrite HB in HI.
  cbn [fst snd] in HI.
  destruct HI as
    [(b1 & w1 & _ & Hfail & _) | (b1 & w1 & b2 & w2 & w3 & HP & HBody & HC & Hout)];
    [contradiction |].
  injection Hout as <- <-.
  pose proof (Build_prelude_settings env _ _ _ _ _ HP) as (HS & _).
  pose proof (Build_prelude_spec env _ _ _ _ _ HP) as
    (_ & _ & _ & _ & _ & _ & _ & _ & (evs & HT & _) & _).
  unfold Build_body in HBody.
  apply bind_Ok in HBody. destruct HBody as ([] & [b3 w3'] & E1 & H).
  apply bind_Ok in H. destruct H as ([] & [b4 w4] & E2 & H).
  apply bind_Ok in H. destruct H as ([] & [b5 w5] & E3 & H).
  pose proof (signSdBoot_frame env true true (b1, w1)) as F1. rewrite E1 in F1.
  pose proof (stable_logger_log false true true LevelInfo "Generating UKI sections"
                (b3, w3')) as F2. rewrite E2 in F2.
  pose proof (run_generators_frame true true true _ (generators_frame env) (b4, w4)) as F3.
  rewrite E3 in F3. cbn [snd] in *.
  pose proof (frame_settings _ _ _ _ _ F1) as (S1 & _).
  pose proof (frame_settings _ _ _ _ _ F2) as (S2 & _).
  pose proof (frame_settings _ _ _ _ _ F3) as (S3 & _).
  pose proof (frame_scratchDir _ _ _ _ _ F1) as D1.
  pose proof (frame_scratchDir _ _ _ _ _ F2) as D2.
  pose proof (frame_scratchDir _ _ _ _ _ F3) as D3.
  destruct F1 as [_ _ _ (v1 & T1 & _) _], F2 as [_ _ _ (v2 & T2 & _) _],
           F3 as [_ _ _ (v3 & T3 & _) _].
  cbn [fst snd] in *.
  exists b1, w1, b5, w5, w2,
    ((EvSetLogLoggerLevel (selectLevel (LogLevel b)) :: evs) ++ v1 ++ v2 ++ v3).
  split; [exact HP |]. split.
  { eapply same_settings_trans; [| exact S3].
    eapply same_settings_trans; [| exact S2].
    eapply same_settings_trans; [exact HS | exact S1]. }
  split; [congruence |]. split.
  { rewrite T3, T2, T1, HT. repeat rewrite <- app_assoc. reflexivity. }
  split; [exact H | exact HC].
Qed.

(** X5. A call of [Build] that returns nil has handed the assembler the
    boot stub and the final section list, PCRSig included, and has then
    signed the file the assembler returned into [OutUKIPath]: these are
    the last calls of the run before the scratch directory is removed, in
    this order, and both succeeded. *)
Theorem Build_Ok_assembles_then_signs b w b' w' :
  Build env (b, w) = (Ok tt, (b', w')) ->
  exists pre lg r w_a w_s,
    new_events w w' =
      pre ++
      [ EvLog lg LevelInfo "Generated UKI sections"; EvLog lg LevelInfo "Assembling UKI";
        EvAssemble (SdStubPath b) (sections b');
        EvLog lg LevelInfo "Assembled UKI"; EvLog lg LevelInfo "Signing UKI";
        EvSign (peSigner b') (unsignedUKIPath b') (OutUKIPath b);
        EvLog lg LevelInfo "Signed UKI" ] ++
      EvRemoveAll (scratchDir b') r ::
        match r with
        | None => []
        | Some e => [EvLogPrintf "failed to remove scratch dir: %v" e]
        end /\
    assemble_UKI env (SdStubPath b) (sections b') w_a = inl (unsignedUKIPath b') /\
    pesign_Sign env (peSigner b') (unsignedUKIPath b') (OutUKIPath b) (Some lg) w_s = Ok tt.
Proof.
  intros HB. apply Build_Ok_inv in HB.
  destruct HB as (b1 & w1 & b5 & w5 & w6 & pre & _ & HS & _ & HT & HA & HC).
  apply assembleAndSign_Ok in HA.
  destruct HA as (lg & p & w_a & w_s & _ & -> & HAs & HSi & HT6).
  pose proof (deferred_cleanup_spec env (set_unsignedUKIPath b5 p) w6) as
    (_ & _ & _ & CT & _).
  cbv zeta in CT. rewrite HC in CT. cbn [snd] in CT.
  destruct HS as (_ & _ & HStub & _ & _ & _ & _ & _ & _ & _ & _ & _ & _ & HOut & _).
  cbn [sections peSigner unsignedUKIPath scratchDir set_unsignedUKIPath] in *.
  rewrite HStub, HOut in *.
  exists pre, lg, (os_RemoveAll env (scratchDir b5) w6), w_a, w_s.
  split; [| split; assumption].
  apply new_events_app. rewrite CT, HT6, HT. repeat rewrite <- app_assoc. reflexivity.
Qed.

End AssembleSign.

Lemma Build_Ok_assembles_then_signs_witness :
  exists pre lg r w_a w_s,
    new_events Sample.world0 (snd (snd SampleRuns.first_run)) =
      pre ++
      [ EvLog lg LevelInfo "Generated UKI sections"; EvLog lg LevelInfo "Assembling UKI";
        EvAssemble (SdStubPath SampleRuns.builder_signed_boot)
          (sections (fst (snd SampleRuns.first_run)));
        EvLog lg LevelInfo "Assembled UKI"; EvLog lg LevelInfo "Signing UKI";
        EvSign (peSigner (fst (snd SampleRuns.first_run)))
          (unsignedUKIPath (fst (snd SampleRuns.first_run)))
          (OutUKIPath SampleRuns.builder_signed_boot);
        EvLog lg LevelInfo "Signed UKI" ] ++
      EvRemoveAll (scratchDir (fst (snd SampleRuns.first_run))) r ::
        match r with
        | None => []
        | Some e => [EvLogPrintf "failed to remove scratch dir: %v" e]
        end /\
    assemble_UKI SampleRuns.env_no_version (SdStubPath SampleRuns.builder_signed_boot)
      (sections (fst (snd SampleRuns.first_run))) w_a =
      inl (unsignedUKIPath (fst (snd SampleRuns.first_run))) /\
    pesign_Sign SampleRuns.env_no_version (peSigner (fst (snd SampleRuns.first_run)))
      (unsignedUKIPath (fst (snd SampleRuns.first_run)))
      (OutUKIPath SampleRuns.builder_signed_boot) (Some lg) w_s = Ok tt.
Proof.
  apply (Build_Ok_assembles_then_signs SampleRuns.env_no_version
           SampleRuns.builder_signed_boot Sample.world0
           (fst (snd SampleRuns.first_run)) (snd (snd SampleRuns.first_run))).
  vm_compute. reflexivity.
Defined.

(** ** Panics *)




Section Calm.

Variable env : Env.












Hypothesis Hsign : Sign_returns env.





End Calm.


(** ** File writes *)

Section Preorder.

Variable R : State -> State -> Prop.
Hypothesis R_refl : forall s, R s s.
Hypothesis R_trans : forall s1 s2 s3, R s1 s2 -> R s2 s3 -> R s1 s3.

Lemma stable_bind_pre {A B} (m : M A) (k : A -> M B) :
  stable R m -> (forall a, stable R (k a)) -> stable R (bind m k).
Proof.
  intros Hm Hk s. unfold bind. specialize (Hm s).
  destruct (m s) as [[a | e |] s1]; cbn [snd] in *; auto.
  eapply R_trans; [exact Hm | apply Hk].
Qed.

Lemma stable_wrapErr_pre {A} prefix (m : M A) : stable R m -> stable R (wrapErr prefix m).
Proof. intros Hm s. rewrite wrapErr_snd. apply Hm. Qed.

Lemma run_generators_stable_pre gs : Forall (stable R) gs -> stable R (run_generators gs).
Proof.
  induction 1 as [| g gs Hg _ IH]; cbn [run_generators].
  - intros s. apply R_refl.
  - apply stable_bind_pre; [apply stable_wrapErr_pre; exact Hg | intros _; exact IH].
Qed.

End Preorder.

Ltac confined_leaf :=
  unfold confined;
  cbn [fst snd trace emit set_files scratchDir set_sections set_peSigner
       set_unsignedUKIPath];
  (split; [reflexivity |]);
  first [ eexists; split; [repeat rewrite <- app_assoc; reflexivity |]
        | exists []; split; [rewrite app_nil_r; reflexivity |] ];
  repeat (constructor;
          [cbn [writes_scratch_file];
           first [ exact I
                 | eexists; split; [| reflexivity]; cbn;
                   repeat first [left; reflexivity | right] ] |]);
  constructor.

Ltac confined_tac name g :=
  intros [b w]; destruct (g (b, w)) as [r [b' w']] eqn:H;
  unfold name in H; run; confined_leaf.

Section Confined.

Variable env : Env.

Lemma confined_refl s : confined env s s.
Proof. split; [reflexivity |]. exists []. rewrite app_nil_r. split; auto. Qed.

Lemma confined_trans s1 s2 s3 :
  confined env s1 s2 -> confined env s2 s3 -> confined env s1 s3.
Proof.
  intros [D1 (v1 & T1 & F1)] [D2 (v2 & T2 & F2)]. split; [congruence |].
  exists (v1 ++ v2). split; [rewrite T2, T1, app_assoc; reflexivity |].
  apply Forall_app. split; [exact F1 |]. rewrite <- D1. exact F2.
Qed.

Lemma generateOSRel_confined : stable (confined env) (generateOSRel env).
Proof. confined_tac generateOSRel (generateOSRel env). Qed.

Lemma generateCmdline_confined : stable (confined env) (generateCmdline env).
Proof. confined_tac generateCmdline (generateCmdline env). Qed.

Lemma generateInitrd_confined : stable (confined env) generateInitrd.
Proof. confined_tac generateInitrd generateInitrd. Qed.

Lemma generateSplash_confined : stable (confined env) (generateSplash env).
Proof. confined_tac generateSplash (generateSplash env). Qed.

Lemma generateUname_confined : stable (confined env) (generateUname env).
Proof. confined_tac generateUname (generateUname env). Qed.

Lemma generateSBAT_confined : stable (confined env) (generateSBAT env).
Proof. confined_tac generateSBAT (generateSBAT env). Qed.

Lemma generatePCRPublicKey_confined : stable (confined env) (generatePCRPublicKey env).
Proof. confined_tac generatePCRPublicKey (generatePCRPublicKey env). Qed.

Lemma generateKernel_confined : stable (confined env) generateKernel.
Proof. confined_tac generateKernel generateKernel. Qed.

Lemma generatePCRSig_confined : stable (confined env) (generatePCRSig env).
Proof. confined_tac generatePCRSig (generatePCRSig env). Qed.

Lemma signSdBoot_confined : stable (confined env) (signSdBoot env).
Proof.
  intros [b w]. destruct (signSdBoot env (b, w)) as [r [b' w']] eqn:H.
  unfold signSdBoot, slog_log, newPESigner, Sign in H. run; confined_leaf.
Qed.

Lemma assembleAndSign_confined : stable (confined env) (assembleAndSign env).
Proof.
  intros [b w]. destruct (assembleAndSign env (b, w)) as [r [b' w']] eqn:H.
  unfold assembleAndSign, assemble, Sign in H. run; confined_leaf.
Qed.

Lemma logger_log_confined l msg : stable (confined env) (logger_log l msg).
Proof. confined_tac logger_log (logger_log l msg). Qed.

Lemma Build_body_confined : stable (confined env) (Build_body env).
Proof.
  unfold Build_body.
  apply (stable_bind_pre _ confined_trans); [apply signSdBoot_confined | intros _].
  apply (stable_bind_pre _ confined_trans); [apply logger_log_confined | intros _].
  apply (stable_bind_pre _ confined_trans); [| intros _; apply assembleAndSign_confined].
  apply (run_generators_stable_pre _ confined_refl confined_trans).
  unfold generators.
  repeat (constructor;
          [solve [auto using generateOSRel_confined, generateCmdline_confined,
                    generateInitrd_confined, generateSplash_confined,
                    generateUname_confined, generateSBAT_confined,
                    generatePCRPublicKey_confined, generateKernel_confined,
                    generatePCRSig_confined] |]).
  constructor.
Qed.

(** X7. The only files a call of [Build] writes with [os.WriteFile] are
    os-release, cmdline, splash.bmp, uname, sbat, pcr-public.pem and
    pcrpsig of the builder's scratch directory, the one the call created:
    the kernel, the initrd, a supplied os-release and a supplied splash
    image are read, never written. *)
Theorem Build_writes_only_scratch_files b w :
  let out := Build env (b, w) in
  Forall (writes_scratch_file env (scratchDir (fst (snd out))))
    (new_events w (snd (snd out))).
Proof.
  cbv zeta.
  destruct (Build_inv env b w) as
    [(b1 & w1 & HP & Hfail & Hout) | (b1 & w1 & b2 & w2 & w3 & HP & HBody & HC & Hout)];
    pose proof (Build_prelude_spec env _ _ _ _ _ HP) as
      (_ & _ & _ & _ & _ & _ & _ & _ & (evs & HT & HF & _) & _);
    rewrite Hout; cbn [fst snd].
  - rewrite (new_events_app _ _ _ HT). constructor; [exact I |].
    eapply Forall_impl; [exact HF |]. intros ev Hev; destruct ev; cbn in *; tauto.
  - pose proof (Build_body_confined (b1, w1)) as [D (evs2 & HT2 & HF2)].
    rewrite HBody in D, HT2. cbn [fst snd] in *.
    pose proof (deferred_cleanup_spec env b2 w2) as (_ & _ & _ & CT & _).
    cbv zeta in CT. rewrite HC in CT. cbn [snd] in CT.
    erewrite new_events_app
      by (rewrite CT, HT2, HT; repeat rewrite <- app_assoc; reflexivity).
    apply Forall_app. split; [| apply Forall_app; split].
    + constructor; [exact I |].
      eapply Forall_impl; [exact HF |]. intros ev Hev; destruct ev; cbn in *; tauto.
    + rewrite D. exact HF2.
    + destruct (os_RemoveAll env (scratchDir b2) w2); repeat constructor.
Qed.

End Confined.

(** ** The diagnostic print *)

Section DebugPrint.

Variable env : Env.

Lemma prints_in_debug_refl s : prints_in_debug s s.
Proof.
  split; [reflexivity |]. split; [reflexivity |].
  exists []. rewrite app_nil_r. split; auto.
Qed.

Lemma prints_in_debug_trans s1 s2 s3 :
  prints_in_debug s1 s2 -> prints_in_debug s2 s3 -> prints_in_debug s1 s3.
Proof.
  intros (L1 & K1 & v1 & T1 & F1) (L2 & K2 & v2 & T2 & F2).
  split; [congruence |]. split; [congruence |].
  exists (v1 ++ v2). split; [rewrite T2, T1, app_assoc; reflexivity |].
  apply Forall_app. split; [exact F1 |].
  eapply Forall_impl; [exact F2 |].
  intros ev; destruct ev; cbn; auto. rewrite L1, K1. auto.
Qed.

Lemma prints_in_debug_of_frame strict appending s s' :
  frame strict false appending s s' -> prints_in_debug s s'.
Proof.
  intros F. pose proof (frame_settings _ _ _ _ _ F) as (S & _).
  destruct S as (_ & _ & _ & _ & _ & _ & _ & _ & _ & _ & HK & _ & _ & _ & HL).
  destruct F as [_ _ _ (evs & HT & HF) _].
  split; [exact HL |]. split; [exact HK |]. exists evs. split; [exact HT |].
  eapply Forall_impl; [exact HF |].
  intros ev Hev; destruct ev; cbn in *; auto. discriminate.
Qed.

Lemma generatePCRSig_prints : stable prints_in_debug (generatePCRSig env).
Proof.
  intros [b w]. destruct (generatePCRSig env (b, w)) as [r [b' w']] eqn:H.
  unfold generatePCRSig in H. run.
  all: unfold prints_in_debug;
    cbn [fst snd trace emit set_files LogLevel PCRKey set_sections].
  all: split; [reflexivity |]; split; [reflexivity |].
  all: first [ eexists; split; [repeat rewrite <- app_assoc; reflexivity |]
             | exists []; split; [rewrite app_nil_r; reflexivity |] ].
  all: repeat (constructor;
               [cbn [print_only_in_debug];
                first [ exact I
                      | split; [apply String.eqb_eq; assumption | split; reflexivity] ] |]).
  all: constructor.
Qed.

Lemma Build_body_prints : stable prints_in_debug (Build_body env).
Proof.
  unfold Build_body.
  apply (stable_bind_pre _ prints_in_debug_trans).
  { intros s. eapply prints_in_debug_of_frame. apply (signSdBoot_frame env false false). }
  intros _. apply (stable_bind_pre _ prints_in_debug_trans).
  { intros s. eapply prints_in_debug_of_frame.
    apply (stable_logger_log false false false). }
  intros _. apply (stable_bind_pre _ prints_in_debug_trans).
  2: { intros _ s. eapply prints_in_debug_of_frame.
       apply (assembleAndSign_frame env false false false). }
  rewrite generators_split. intros s. rewrite run_generators_app. revert s.
  apply (stable_bind_pre _ prints_in_debug_trans).
  { intros s. eapply prints_in_debug_of_frame.
    apply (run_generators_frame true false true _ (payload_generators_frame env)). }
  intros _.
  apply (run_generators_stable_pre _ prints_in_debug_refl prints_in_debug_trans).
  constructor; [apply generatePCRSig_prints | constructor].
Qed.

(** X8. The diagnostic print of the measurements happens only for a
    builder whose [LogLevel] is exactly "debug", in lower case: whenever a
    call of [Build] makes it, [LogLevel] is "debug", the phases are
    "enter-initrd:leave-initrd:sysinit:ready" and the key path is
    [PCRKey].  (The log level itself is chosen without regard to case, so
    "DEBUG" raises the level and prints nothing.) *)
Theorem Build_prints_measurements_only_in_debug b w :
  let out := Build env (b, w) in
  Forall (print_only_in_debug b) (new_events w (snd (snd out))) /\
  (LogLevel b = "DEBUG" ->
   selectLevel (LogLevel b) = LevelDebug /\
   Forall (fun ev => measured_by ev = None \/ exists m k pcr, ev = EvGenerateSignedPCR m k pcr)
     (new_events w (snd (snd out)))).
Proof.
  cbv zeta.
  assert (HF0 : Forall (print_only_in_debug b)
                  (new_events w (snd (snd (Build env (b, w)))))).
  { destruct (Build_inv env b w) as
      [(b1 & w1 & HP & Hfail & Hout) | (b1 & w1 & b2 & w2 & w3 & HP & HBody & HC & Hout)];
      pose proof (Build_prelude_spec env _ _ _ _ _ HP) as
        (_ & _ & _ & _ & _ & _ & _ & _ & (evs & HT & HF & _) & _);
      pose proof (Build_prelude_settings env _ _ _ _ _ HP) as (HS & _);
      rewrite Hout; cbn [fst snd].
    - rewrite (new_events_app _ _ _ HT). constructor; [exact I |].
      eapply Forall_impl; [exact HF |]. intros ev Hev; destruct ev; cbn in *; tauto.
    - pose proof (Build_body_prints (b1, w1)) as (_ & _ & evs2 & HT2 & HF2).
      rewrite HBody in HT2. cbn [fst snd] in *.
      pose proof (deferred_cleanup_spec env b2 w2) as (_ & _ & _ & CT & _).
      cbv zeta in CT. rewrite HC in CT. cbn [snd] in CT.
      erewrite new_events_app
        by (rewrite CT, HT2, HT; repeat rewrite <- app_assoc; reflexivity).
      destruct HS as (_ & _ & _ & _ & _ & _ & _ & _ & _ & _ & HK & _ & _ & _ & HL).
      apply Forall_app. split; [| apply Forall_app; split].
      + constructor; [exact I |].
        eapply Forall_impl; [exact HF |]. intros ev Hev; destruct ev; cbn in *; tauto.
      + eapply Forall_impl; [exact HF2 |].
        intros ev; destruct ev; cbn; auto. rewrite HL, HK. auto.
      + destruct (os_RemoveAll env (scratchDir b2) w2); repeat constructor. }
  split; [exact HF0 |].
  intros HD. split; [rewrite HD; reflexivity |].
  eapply Forall_impl; [exact HF0 |].
  intros ev Hev; destruct ev; cbn in *; auto.
  - right. eauto.
  - destruct Hev as [Hev _]. rewrite HD in Hev. discriminate.
Qed.

End DebugPrint.

(** ** Measuring a list that continues an older one *)

Section ToMapApp.

Context {A K V : Type} `{Countable K}.
Variable f : A -> K * V.

Lemma fold_insert_lookup (l : list A) (m0 : gmap K V) k :
  fold_left (fun m a => <[fst (f a) := snd (f a)]> m) l m0 !! k =
  match fold_left (fun (m : gmap K V) a => <[fst (f a) := snd (f a)]> m) l (∅ : gmap K V) !! k with
  | Some v => Some v
  | None => m0 !! k
  end.
Proof.
  revert m0. induction l as [| a l IH]; intros m0; cbn [fold_left].
  - rewrite lookup_empty. reflexivity.
  - rewrite (IH (<[fst (f a) := snd (f a)]> m0)), (IH (<[fst (f a) := snd (f a)]> (∅ : gmap K V))).
    destruct (fold_left _ l ∅ !! k); [reflexivity |].
    destruct (decide (fst (f a) = k)) as [-> | Hne].
    + rewrite !lookup_insert_eq. reflexivity.
    + rewrite !lookup_insert_ne by exact Hne. rewrite lookup_empty. reflexivity.
Qed.

Lemma xslices_ToMap_app (l1 l2 : list A) k :
  xslices_ToMap (l1 ++ l2) f !! k =
  match xslices_ToMap l2 f !! k with
  | Some v => Some v
  | None => xslices_ToMap l1 f !! k
  end.
Proof. unfold xslices_ToMap. rewrite fold_left_app. apply fold_insert_lookup. Qed.

End ToMapApp.

Lemma sectionsData_app_lookup older newer n :
  sectionsData (older ++ newer) !! n =
  match sectionsData newer !! n with
  | Some p => Some p
  | None => sectionsData older !! n
  end.
Proof.
  unfold sectionsData, xslices_Filter. rewrite List.filter_app.
  apply xslices_ToMap_app.
Qed.

(** X9. The mapping built from a section list that continues an older
    list is the older list's mapping overridden by the new sections: a
    name measured among the new sections maps to the path of the last such
    section, and any other name keeps what the older list gave it. *)
Theorem sectionsData_app older newer n :
  sectionsData (older ++ newer) !! n =
  match sectionsData newer !! n with
  | Some p => Some p
  | None => sectionsData older !! n
  end.
Proof. apply sectionsData_app_lookup. Qed.

Lemma sectionsData_expected env cfg d uname s :
  In s (expected_sections env cfg d uname) -> Measure s = true ->
  sectionsData (expected_sections env cfg d uname) !! Name s = Some (Path s).
Proof.
  unfold expected_sections, sectionsData, xslices_Filter, xslices_ToMap.
  destruct uname; cbn [app List.filter Measure fold_left fst snd Name Path];
    intros Hin Hm; cbn [In] in Hin;
    repeat (destruct Hin as [<- | Hin]; [try discriminate Hm |]); try contradiction;
    cbn [Name Path];
    repeat (rewrite lookup_insert_ne by discriminate); apply lookup_insert_eq.
Qed.

(** X10. In a call of [Build] that returns nil, on a fresh builder or on
    one that holds the sections of earlier calls, the mapping handed to
    the measurement engine gives every measured section of this call its
    own path: the kernel is measured at the configured [KernelPath], the
    initrd at [InitrdPath], and each generated file at its path in this
    call's scratch directory, never at a path left by an earlier call. *)
Theorem Build_measures_this_run env b w b' w' :
  Build env (b, w) = (Ok tt, (b', w')) ->
  exists uname,
    version_found env (KernelPath b) uname /\
    forall ev m,
      In ev (new_events w w') -> measured_by ev = Some m ->
      forall s, In s (expected_sections env b (scratchDir b') uname) ->
                Measure s = true -> m !! Name s = Some (Path s).
Proof.
  intros HB.
  destruct (Build_Ok_section_list env _ _ _ _ HB) as (uname & E & V & _).
  exists uname. split; [exact V |].
  intros ev m Hin Hm s Hs Hmeas.
  destruct (Build_measures env b w) as (evs & HT & HF).
  rewrite HB in HT, HF. cbn [fst snd] in HT, HF.
  rewrite (new_events_app _ _ _ HT) in Hin.
  rewrite Forall_forall in HF. apply list_elem_of_In in Hin.
  rewrite (HF ev Hin m Hm), E, sectionsData_app_lookup.
  rewrite (sectionsData_expected _ _ _ _ s Hs Hmeas). reflexivity.
Qed.

Lemma Build_measures_this_run_witness :
  exists uname,
    version_found SampleRuns.env_no_version
      (KernelPath (fst (snd SampleRuns.first_run))) uname /\
    forall ev m,
      In ev (new_events (snd (snd SampleRuns.first_run)) (snd (snd SampleRuns.second_run))) ->
      measured_by ev = Some m ->
      forall s, In s (expected_sections SampleRuns.env_no_version
                        (fst (snd SampleRuns.first_run))
                        (scratchDir (fst (snd SampleRuns.second_run))) uname) ->
                Measure s = true -> m !! Name s = Some (Path s).
Proof.
  apply (Build_measures_this_run SampleRuns.env_no_version
           (fst (snd SampleRuns.first_run)) (snd (snd SampleRuns.first_run))
           (fst (snd SampleRuns.second_run)) (snd (snd SampleRuns.second_run))).
  vm_compute. reflexivity.
Defined.

(** ** Signing systemd-boot *)

Section SdBoot.

Variable env : Env.

Lemma signSdBoot_Ok b w b' w' :
  SdBootPath b <> "" ->
  signSdBoot env (b, w) = (Ok tt, (b', w')) ->
  exists sg w0 w1,
    pesign_NewSigner env (SecureBootSigner b) w0 = inl sg /\
    pesign_Sign env (Some sg) (SdBootPath b) (OutSdBootPath b) (Logger b) w1 = Ok tt /\
    b' = set_peSigner b (Some sg) /\
    trace w' = trace w ++ sdboot_signing b (SecureBootSigner b) sg.
Proof.
  intros Hne H. unfold signSdBoot, newPESigner, Sign in H. run.
  - apply String.eqb_eq in Heqb0. contradiction.
  - do 3 eexists. split; [eassumption |]. split.
    + match goal with H : pesign_Sign _ _ _ _ _ _ = Ok ?u |- _ => destruct u; exact H end.
    + split; [reflexivity |]. unfold sdboot_signing.
      repeat rewrite <- app_assoc. reflexivity.
Qed.

(** X11. When [SdBootPath] is set and [Build] returns nil, systemd-boot
    was signed first: after the set-up (log level, signers, scratch
    directory) and before any section is generated, a PE signer is made
    from the builder's Secure-Boot signer and signs [SdBootPath] into
    [OutSdBootPath], both announced on the default logger.  That signer is
    the one the builder holds at the end, so it is also the one that signs
    the UKI. *)
Theorem Build_Ok_signs_sdboot_first b w b' w' :
  Build env (b, w) = (Ok tt, (b', w')) ->
  SdBootPath b <> "" ->
  exists pre post sg w0 w1,
    new_events w w' = pre ++ sdboot_signing b (SecureBootSigner b') sg ++ post /\
    Forall setup_event pre /\
    Forall (signs_only_through (Some sg)) post /\
    peSigner b' = Some sg /\
    pesign_NewSigner env (SecureBootSigner b') w0 = inl sg /\
    pesign_Sign env (Some sg) (SdBootPath b) (OutSdBootPath b) (Logger b') w1 = Ok tt.
Proof.
  intros HB Hne.
  pose proof (Build_inv env b w) as HI. cbv zeta in HI. rewrite HB in HI.
  cbn [fst snd] in HI.
  destruct HI as
    [(b1 & w1 & _ & Hfail & _) | (b1 & w1 & b2 & w2 & w3 & HP & HBody & HC & Hout)];
    [contradiction |].
  injection Hout as <- <-.
  pose proof (Build_prelude_settings env _ _ _ _ _ HP) as (HS & _).
  pose proof (Build_prelude_spec env _ _ _ _ _ HP) as
    (_ & _ & _ & HSd & _ & _ & _ & _ & (evs & HT & HF & _) & _).
  pose proof (deferred_cleanup_spec env b' w2) as (_ & _ & _ & CT & _).
  cbv zeta in CT. rewrite HC in CT. cbn [snd] in CT.
  unfold Build_body in HBody.
  apply bind_Ok in HBody. destruct HBody as ([] & [b3 w3'] & E1 & H).
  apply bind_Ok in H. destruct H as ([] & [b4 w4] & E2 & H).
  apply bind_Ok in H. destruct H as ([] & [b5 w5] & E3 & H).
  pose proof (stable_logger_log true true true LevelInfo "Generating UKI sections"
                (b3, w3')) as F2. rewrite E2 in F2.
  pose proof (run_generators_frame true true true _ (generators_frame env) (b4, w4)) as F3.
  rewrite E3 in F3.
  pose proof (assembleAndSign_frame env true true true (b5, w5)) as F4.
  rewrite H in F4. cbn [snd] in *.
  pose proof (frame_trans _ _ _ _ _ _ (frame_trans _ _ _ _ _ _ F2 F3) F4) as F.
  assert (Hne1 : SdBootPath b1 <> "") by (rewrite HSd; exact Hne).
  destruct (signSdBoot_Ok _ _ _ _ Hne1 E1) as (sg & w0 & w1' & HN & HSg & -> & HT1).
  pose proof (frame_settings _ _ _ _ _ F) as (_ & _ & HSB).
  pose proof (frame_Logger _ _ _ _ _ F) as HL.
  destruct F as [_ FS _ (post & HT2 & HF2) _]. cbn [fst snd] in *.
  specialize (FS eq_refl). cbn [peSigner SecureBootSigner Logger set_peSigner] in *.
  destruct HS as (_ & _ & _ & HSdB & _ & _ & _ & _ & _ & _ & _ & _ & HOut & _).
  exists (EvSetLogLoggerLevel (selectLevel (LogLevel b)) :: evs),
    (post ++ EvRemoveAll (scratchDir b') (os_RemoveAll env (scratchDir b') w2) ::
       match os_RemoveAll env (scratchDir b') w2 with
       | None => []
       | Some e => [EvLogPrintf "failed to remove scratch dir: %v" e]
       end), sg, w0, w1'.
  split; [| split; [| split; [| split; [| split]]]].
  - apply new_events_app. rewrite CT, HT2, HT1, HT. unfold sdboot_signing.
    rewrite HSB, HSdB, HOut. repeat rewrite <- app_assoc. reflexivity.
  - constructor; [exact I |].
    eapply Forall_impl; [exact HF |]. intros ev Hev; destruct ev; cbn in *; tauto.
  - apply Forall_app. split.
    + eapply Forall_impl; [exact HF2 |].
      intros ev Hev; destruct ev; cbn in *; try tauto; try discriminate.
    + destruct (os_RemoveAll env (scratchDir b') w2); repeat constructor.
  - exact FS.
  - rewrite HSB. exact HN.
  - rewrite HL, <- HSdB, <- HOut. exact HSg.
Qed.

End SdBoot.

Lemma Build_Ok_signs_sdboot_first_witness :
  exists pre post sg w0 w1,
    new_events Sample.world0 (snd (snd SampleRuns.first_run)) =
      pre ++ sdboot_signing SampleRuns.builder_signed_boot
               (SecureBootSigner (fst (snd SampleRuns.first_run))) sg ++ post /\
    Forall setup_event pre /\
    Forall (signs_only_through (Some sg)) post /\
    peSigner (fst (snd SampleRuns.first_run)) = Some sg /\
    pesign_NewSigner SampleRuns.env_no_version
      (SecureBootSigner (fst (snd SampleRuns.first_run))) w0 = inl sg /\
    pesign_Sign SampleRuns.env_no_version (Some sg)
      (SdBootPath SampleRuns.builder_signed_boot)
      (OutSdBootPath SampleRuns.builder_signed_boot)
      (Logger (fst (snd SampleRuns.first_run))) w1 = Ok tt.
Proof.
  apply (Build_Ok_signs_sdboot_first SampleRuns.env_no_version
           SampleRuns.builder_signed_boot Sample.world0
           (fst (snd SampleRuns.first_run)) (snd (snd SampleRuns.first_run))).
  - vm_compute. reflexivity.
  - vm_compute. discriminate.
Defined.

(** ** A generator that fails *)

Ltac atomic_tac name g :=
  intros [b w]; destruct (g (b, w)) as [r [b' w']] eqn:H;
  cbn [fst snd]; intros Hne;
  unfold name in H; run; try reflexivity;
  try (exfalso; apply Hne; reflexivity);
  try match goal with u : unit |- _ => destruct u; exfalso; apply Hne; reflexivity end.

Section Atomic.

Variable env : Env.

Lemma generateOSRel_atomic : atomic (generateOSRel env).
Proof. atomic_tac generateOSRel (generateOSRel env). Qed.

Lemma generateCmdline_atomic : atomic (generateCmdline env).
Proof. atomic_tac generateCmdline (generateCmdline env). Qed.

Lemma generateInitrd_atomic : atomic generateInitrd.
Proof. atomic_tac generateInitrd generateInitrd. Qed.

Lemma generateSplash_atomic : atomic (generateSplash env).
Proof. atomic_tac generateSplash (generateSplash env). Qed.

Lemma generateUname_atomic : atomic (generateUname env).
Proof. atomic_tac generateUname (generateUname env). Qed.

Lemma generateSBAT_atomic : atomic (generateSBAT env).
Proof. atomic_tac generateSBAT (generateSBAT env). Qed.

Lemma generatePCRPublicKey_atomic : atomic (generatePCRPublicKey env).
Proof. atomic_tac generatePCRPublicKey (generatePCRPublicKey env). Qed.

Lemma generateKernel_atomic : atomic generateKernel.
Proof. atomic_tac generateKernel generateKernel. Qed.

Lemma generatePCRSig_atomic : atomic (generatePCRSig env).
Proof. atomic_tac generatePCRSig (generatePCRSig env). Qed.

(** X12. Each of the nine generators appends its section as its last
    step: a generator that does not return nil (it returns an error, or
    panics on a nil logger or a nil PCR signer) leaves the builder exactly
    as it found it, with no section appended.  Hence, when the loop of
    [Build] stops at a failing generator, the builder holds the sections
    of the generators before it and nothing of the failing one. *)
Theorem failing_generator_appends_nothing g before s s1 :
  In g (generators env) ->
  run_generators before s = (Ok tt, s1) ->
  fst (g s1) <> Ok tt ->
  fst (snd (g s1)) = fst s1 /\
  fst (snd (run_generators (before ++ [g]) s)) = fst s1.
Proof.
  intros Hin Hb Hne.
  assert (Hat : atomic g).
  { unfold generators in Hin. cbn [In] in Hin.
    repeat (destruct Hin as [<- | Hin];
            [auto using generateOSRel_atomic, generateCmdline_atomic,
               generateInitrd_atomic, generateSplash_atomic, generateUname_atomic,
               generateSBAT_atomic, generatePCRPublicKey_atomic, generateKernel_atomic,
               generatePCRSig_atomic |]).
    contradiction. }
  split; [exact (Hat s1 Hne) |].
  rewrite run_generators_app. unfold bind at 1. rewrite Hb.
  cbn [run_generators]. unfold bind. rewrite <- (Hat s1 Hne).
  pose proof (wrapErr_snd "error generating sections" g s1) as Hs.
  unfold wrapErr in *.
  destruct (g s1) as [[[] | e |] s2]; cbn [fst snd] in *;
    [exfalso; apply Hne; reflexivity | reflexivity | reflexivity].
Qed.

End Atomic.

Lemma failing_generator_appends_nothing_witness :
  fst (snd (generateSBAT MoreRuns.env_no_sbat (SampleRuns.builder_splash, Sample.world0))) =
    SampleRuns.builder_splash /\
  fst (snd (run_generators ([] ++ [generateSBAT MoreRuns.env_no_sbat])
              (SampleRuns.builder_splash, Sample.world0))) =
    SampleRuns.builder_splash.
Proof.
  apply (failing_generator_appends_nothing MoreRuns.env_no_sbat
           (generateSBAT MoreRuns.env_no_sbat) []
           (SampleRuns.builder_splash, Sample.world0)
           (SampleRuns.builder_splash, Sample.world0)).
  - unfold generators. cbn [In]. do 5 right. left. reflexivity.
  - reflexivity.
  - vm_compute. discriminate.
Defined.

(** ** The os-release and splash files *)

Section Contents.

Variable env : Env.

(** X13. With an os-release file supplied, the os-release generator
    writes nothing and asks for no generated content: it logs, appends the
    OSRel section at the supplied path and returns nil.  With none, the
    content [constants.OSReleaseFor] gives for the product name and the
    builder's [Version] is written to scratch/os-release, which becomes
    the section's path; an error of [OSReleaseFor] or of the write is
    returned as it is and leaves the file system or the builder as they
    were. *)
Theorem generateOSRel_supplied_or_generated b w lg :
  Logger b = Some lg ->
  let out := generateOSRel env (b, w) in
  let path := filepath_Join env (scratchDir b) "os-release" in
  (OsRelease b <> "" ->
   out = (Ok tt,
          (set_sections b (sections b ++ [mkSection constants.OSRel (OsRelease b) true true]),
           emit (EvLog lg LevelDebug "Using existing os-release") w))) /\
  (OsRelease b = "" ->
   match constants_OSReleaseFor env (constants_Name env) (Version b) with
   | inr e =>
       out = (Err e, (b, emit (EvLog lg LevelDebug "Generating a new os-release") w))
   | inl osRelease =>
       exists r,
         new_events w (snd (snd out)) =
           [ EvLog lg LevelDebug "Generating a new os-release";
             EvWriteFile path osRelease r ] /\
         match r with
         | None =>
             fst out = Ok tt /\
             fst (snd out) =
               set_sections b (sections b ++ [mkSection constants.OSRel path true true]) /\
             files (snd (snd out)) !! path = Some osRelease
         | Some e => fst out = Err e /\ fst (snd out) = b /\ files (snd (snd out)) = files w
         end
   end).
Proof.
  intros HL out path. subst out path. split.
  - intros HO. apply String.eqb_neq in HO.
    unfold generateOSRel. run_unfold. rewrite HO. run_unfold. rewrite HL. reflexivity.
  - intros HO. unfold generateOSRel. run_unfold. rewrite HO. cbn [String.eqb]. run_unfold.
    rewrite HL. run_unfold.
    destruct (constants_OSReleaseFor env (constants_Name env) (Version b)) as [c | e];
      run_unfold; [| reflexivity].
    match goal with
    | |- context [os_WriteFile env ?p ?d ?w0] =>
        exists (os_WriteFile env p d w0); destruct (os_WriteFile env p d w0) eqn:HW
    end; run_unfold.
    + split; [| repeat split].
      apply new_events_app. cbn [trace emit]. repeat rewrite <- app_assoc. reflexivity.
    + split; [| split; [reflexivity | split; [reflexivity | apply lookup_insert_eq]]].
      apply new_events_app. cbn [trace emit set_files].
      repeat rewrite <- app_assoc. reflexivity.
Qed.

(** X14. The splash generator writes to scratch/splash.bmp exactly the
    bytes it was given: the bundled logo when no splash is configured
    (nothing is read then), otherwise whatever [os.ReadFile] returned for
    the configured file, also when the read returned an error beside its
    bytes (a partial read is written as if it were the whole image).  The
    read's error never reaches the caller: the generator returns nil
    exactly when the write succeeds, and the file then holds those
    bytes. *)
Theorem generateSplash_writes_what_it_got b w lg :
  Logger b = Some lg ->
  let out := generateSplash env (b, w) in
  let path := filepath_Join env (scratchDir b) "splash.bmp" in
  exists data r,
    (if String.eqb (Splash b) "" then
       data = common_Logo env /\
       new_events w (snd (snd out)) =
         [ EvLog lg LevelDebug "Using generic bundled splash"; EvWriteFile path data r ]
     else
       data = fst (os_ReadFile env (Splash b) (emit (EvLog lg LevelDebug "Using splash") w)) /\
       new_events w (snd (snd out)) =
         [ EvLog lg LevelDebug "Using splash"; EvReadFile (Splash b);
           EvWriteFile path data r ]) /\
    match r with
    | None =>
        fst out = Ok tt /\
        fst (snd out) =
          set_sections b (sections b ++ [mkSection constants.Splash path true true]) /\
        files (snd (snd out)) !! path = Some data
    | Some e => fst out = Err e /\ fst (snd out) = b
    end.
Proof.
  intros HL out path. subst out path.
  unfold generateSplash. run_unfold.
  destruct (String.eqb (Splash b) ""); run_unfold; rewrite HL; run_unfold.
  - match goal with
    | |- context [os_WriteFile env ?p ?d ?w0] =>
        exists d, (os_WriteFile env p d w0); destruct (os_WriteFile env p d w0) eqn:HW
    end; run_unfold.
    + split; [split; [reflexivity |] | split; reflexivity].
      apply new_events_app. cbn [trace emit]. repeat rewrite <- app_assoc. reflexivity.
    + split; [split; [reflexivity |]
             | split; [reflexivity | split; [reflexivity | apply lookup_insert_eq]]].
      apply new_events_app. cbn [trace emit set_files].
      repeat rewrite <- app_assoc. reflexivity.
  - match goal with
    | |- context [os_WriteFile env ?p ?d ?w0] =>
        exists d, (os_WriteFile env p d w0); destruct (os_WriteFile env p d w0) eqn:HW
    end; run_unfold.
    + split; [split; [reflexivity |] | split; reflexivity].
      apply new_events_app. cbn [trace emit]. repeat rewrite <- app_assoc. reflexivity.
    + split; [split; [reflexivity |]
             | split; [reflexivity | split; [reflexivity | apply lookup_insert_eq]]].
      apply new_events_app. cbn [trace emit set_files].
      repeat rewrite <- app_assoc. reflexivity.
Qed.

End Contents.

Lemma generateOSRel_supplied_or_generated_witness :
  generateOSRel SampleRuns.env_no_version (MoreRuns.builder_osrel, Sample.world0) =
  (Ok tt,
   (set_sections MoreRuns.builder_osrel
      (sections MoreRuns.builder_osrel ++
       [mkSection constants.OSRel (OsRelease MoreRuns.builder_osrel) true true]),
    emit (EvLog slog_Default LevelDebug "Using existing os-release") Sample.world0)).
Proof.
  apply (proj1 (generateOSRel_supplied_or_generated SampleRuns.env_no_version
                  MoreRuns.builder_osrel Sample.world0 slog_Default eq_refl)).
  vm_compute. discriminate.
Defined.

Lemma generateSplash_writes_what_it_got_witness :
  let out := generateSplash MoreRuns.env_partial_splash
               (SampleRuns.builder_splash, Sample.world0) in
  let path := filepath_Join MoreRuns.env_partial_splash
                (scratchDir SampleRuns.builder_splash) "splash.bmp" in
  exists data r,
    (data = [x42; x4d] /\
     new_events Sample.world0 (snd (snd out)) =
       [ EvLog slog_Default LevelDebug "Using splash";
         EvReadFile (Splash SampleRuns.builder_splash);
         EvWriteFile path data r ]) /\
    match r with
    | None =>
        fst out = Ok tt /\
        fst (snd out) =
          set_sections SampleRuns.builder_splash
            (sections SampleRuns.builder_splash ++
             [mkSection constants.Splash path true true]) /\
        files (snd (snd out)) !! path = Some data
    | Some e => fst out = Err e /\ fst (snd out) = SampleRuns.builder_splash
    end.
Proof.
  exact (generateSplash_writes_what_it_got MoreRuns.env_partial_splash
           SampleRuns.builder_splash Sample.world0 slog_Default eq_refl).
Defined.
